(** * SimpleAITradingBot: scoring engine and simulated ledger

    A shallow embedding of [src/trading_bot.py] (class [SimpleAITradingBot])
    and the properties of its natural-language specification.

    Modelling conventions.
    - Python numbers are modelled by their value as exact rationals ([Q]):
      the specification speaks of real numbers, Python's [int] is exact, and
      the rounding of [float] and its special values (infinities, NaN) are
      left out.  Number comparison is comparison of values ([Qle_bool],
      [Qeq_bool]); division by a zero value raises [ZeroDivisionError], as
      in Python, with the text of a float division (Python's text for two
      [int] operands is "division by zero").  The conversion of an [int] to
      a [float] raises [OverflowError] beyond the range of a double.
      A statement that holds of the decimal values and not of their
      doubles says so: it is stated in exact arithmetic.  In doubles
      [0.1 + 0.2] is [0.30000000000000004], three times [0.2] is
      [0.6000000000000001], and sums and products carry one rounding
      each.
    - Text is ASCII: [str.lower()] lowers the letters A to Z and keeps the
      other bytes, where Python also lowers the letters beyond ASCII.
    - A pair-data record is a JSON value ([pyval]), as returned by
      [response.json()]: the code is dynamically typed and its behaviour on
      ill-typed fields is part of what is specified.
    - Exceptions are explicit: a fallible computation returns a [result];
      code that mutates an object before raising is written in a monad that
      keeps the mutated object next to the exception.
    - [datetime.now()] is an input: its readings are arguments, in
      microseconds since the epoch.  The clock of the model is that of a
      machine whose local zone is UTC: [datetime.fromtimestamp] and
      [datetime.now()] give naive local datetimes in Python, and the zone,
      its daylight-saving shifts and the range of the platform's
      [localtime] are left out.  No statement below depends on the order
      of two ages. *)

From Stdlib Require Import ZArith QArith Qabs Qminmax Qround.
From Stdlib Require Import List String Ascii Bool Lia Lqa DecimalString.
Import ListNotations.

Set Implicit Arguments.
Set Warnings "-register-all".

(* ------------------------------------------------------------------ *)
(** ** Python values and exceptions *)

Module Py.

Inductive pyval : Type :=
| PyNone
| PyBool (b : bool)
| PyInt (z : Z)
| PyFloat (q : Q)
| PyStr (s : string)
| PyList (l : list pyval)
| PyDict (d : list (string * pyval)).

(** [type(v).__name__] *)
Definition type_name (v : pyval) : string :=
  match v with
  | PyNone => "NoneType"
  | PyBool _ => "bool"
  | PyInt _ => "int"
  | PyFloat _ => "float"
  | PyStr _ => "str"
  | PyList _ => "list"
  | PyDict _ => "dict"
  end.

Inductive exn : Type :=
| AttributeError (ty attr : string)
| TypeError (msg : string)
| ValueError (msg : string)
| OverflowError (msg : string)
| ZeroDivisionError (msg : string).

(** [str(e)] *)
Definition str_exn (e : exn) : string :=
  match e with
  | AttributeError ty attr =>
      "'" ++ ty ++ "' object has no attribute '" ++ attr ++ "'"
  | TypeError msg | ValueError msg | OverflowError msg
  | ZeroDivisionError msg => msg
  end.

Inductive result (A : Type) : Type :=
| Ok (a : A)
| Raise (e : exn).
Arguments Ok {A} a.
Arguments Raise {A} e.

Definition rbind {A B} (r : result A) (k : A -> result B) : result B :=
  match r with
  | Ok a => k a
  | Raise e => Raise e
  end.

(** [try: r  except: return d] *)
Definition try_except {A} (r : result A) (d : A) : A :=
  match r with
  | Ok a => a
  | Raise _ => d
  end.

Declare Scope result_scope.
Delimit Scope result_scope with result.
Notation "x <- c ;; k" := (rbind c (fun x => k))
  (at level 61, c at next level, right associativity) : result_scope.

(** Lookup in a dict with string keys (insertion order kept). *)
Fixpoint dict_lookup {V} (k : string) (d : list (string * V)) : option V :=
  match d with
  | [] => None
  | (k', v) :: d' => if String.eqb k k' then Some v else dict_lookup k d'
  end.

(** [v.get(k, dflt)]: only a dict has a [get] among JSON values. *)
Definition get (v : pyval) (k : string) (dflt : pyval) : result pyval :=
  match v with
  | PyDict d =>
      Ok match dict_lookup k d with Some x => x | None => dflt end
  | _ => Raise (AttributeError (type_name v) "get")
  end.

(** The value of a number; [bool] is a subclass of [int]. *)
Definition num_value (v : pyval) : option Q :=
  match v with
  | PyBool b => Some (if b then 1 else 0)
  | PyInt z => Some (inject_Z z)
  | PyFloat q => Some q
  | _ => None
  end.

Definition Qlt_bool (x y : Q) : bool := negb (Qle_bool y x).

(** The ints that convert to a float: one that rounds beyond the largest
    double, [2^1024 - 2^971], raises [OverflowError]. *)
Definition in_double_range (z : Z) : bool :=
  (Z.abs z <? 2 ^ 1024 - 2 ^ 970)%Z.

Definition int_to_float (z : Z) : result Q :=
  if in_double_range z then Ok (inject_Z z)
  else Raise (OverflowError "int too large to convert to float").

(** A number where a float is wanted: an int is converted.  [None] for a
    value that is not a number. *)
Definition float_operand (v : pyval) : option (result Q) :=
  match v with
  | PyInt z => Some (int_to_float z)
  | _ => option_map Ok (num_value v)
  end.

(** [v > c] for a number literal [c] of type [cty]. *)
Definition gt_lit (v : pyval) (c : Q) (cty : string) : result bool :=
  match num_value v with
  | Some q => Ok (Qlt_bool c q)
  | None =>
      Raise (TypeError ("'>' not supported between instances of '"
                        ++ type_name v ++ "' and '" ++ cty ++ "'"))
  end.

(** [v / c] for a non-zero int literal [c]. *)
Definition div_lit (v : pyval) (c : Q) : result Q :=
  match num_value v with
  | Some q => Ok (q / c)
  | None =>
      Raise (TypeError ("unsupported operand type(s) for /: '"
                        ++ type_name v ++ "' and 'int'"))
  end.

(** [bool(v)] *)
Definition truthy (v : pyval) : bool :=
  match v with
  | PyNone => false
  | PyBool b => b
  | PyInt z => negb (Z.eqb z 0)
  | PyFloat q => negb (Qeq_bool q 0)
  | PyStr s => negb (String.eqb s "")
  | PyList l => match l with [] => false | _ => true end
  | PyDict d => match d with [] => false | _ => true end
  end.

(** [x / y] on numbers.  The text is that of a float division; with two
    [int] operands Python's text is "division by zero". *)
Definition div (x y : Q) : result Q :=
  if Qeq_bool y 0 then Raise (ZeroDivisionError "float division by zero")
  else Ok (x / y).

(** [min(a, b)]: the first argument unless the second is smaller. *)
Definition min2 (a b : Q) : Q := if Qlt_bool b a then b else a.

(** Round half to even, as [round] and the [f] format do. *)
Definition round_half_even (x : Q) : Z :=
  let f := Qfloor x in
  let r := x - inject_Z f in
  if Qlt_bool r 0.5 then f
  else if Qlt_bool 0.5 r then (f + 1)%Z
  else if Z.even f then f else (f + 1)%Z.

(** [repr(s)] of a string: double quotes when it has a single quote and no
    double one; the quote, the backslash and the control characters
    escaped; the bytes of the other characters kept. *)
Definition double_quote : ascii := ascii_of_nat 34.

Definition hex_digit (n : nat) : ascii :=
  if (n <? 10)%nat then ascii_of_nat (48 + n) else ascii_of_nat (87 + n).

Definition repr_char (quote c : ascii) : string :=
  let n := nat_of_ascii c in
  if Ascii.eqb c quote || Ascii.eqb c "\"%char then String "\" (String c "")
  else if (n =? 9)%nat then "\t"
  else if (n =? 10)%nat then "\n"
  else if (n =? 13)%nat then "\r"
  else if (n <? 32)%nat || (n =? 127)%nat
  then String "\" (String "x" (String (hex_digit (n / 16))
                                  (String (hex_digit (n mod 16)) "")))
  else String c "".

Fixpoint has_char (c : ascii) (s : string) : bool :=
  match s with
  | EmptyString => false
  | String c' t => Ascii.eqb c c' || has_char c t
  end.

Fixpoint repr_body (quote : ascii) (s : string) : string :=
  match s with
  | EmptyString => EmptyString
  | String c t => repr_char quote c ++ repr_body quote t
  end.

Definition repr (s : string) : string :=
  let quote :=
    if has_char "'"%char s && negb (has_char double_quote s)
    then double_quote else "'"%char in
  String quote (repr_body quote s ++ String quote "").

(** [str.lower()] on ASCII text: the letters A to Z are lowered, the
    other bytes kept. *)
Definition lower_ascii (c : ascii) : ascii :=
  let n := nat_of_ascii c in
  if (65 <=? n)%nat && (n <=? 90)%nat then ascii_of_nat (n + 32) else c.

Fixpoint lower (s : string) : string :=
  match s with
  | EmptyString => EmptyString
  | String c t => String (lower_ascii c) (lower t)
  end.

(** [v.lower()] on a JSON value: only a [str] has it. *)
Definition lower_of (v : pyval) : result string :=
  match v with
  | PyStr s => Ok (lower s)
  | _ => Raise (AttributeError (type_name v) "lower")
  end.

(** [needle in hay] on strings *)
Fixpoint contains (needle hay : string) : bool :=
  String.prefix needle hay
  || match hay with
     | EmptyString => false
     | String _ t => contains needle t
     end.

(** Digits of a non-negative integer grouped by thousands: the [,] format. *)
Fixpoint group3 (rev_digits : list ascii) (acc : string) : string :=
  match rev_digits with
  | a :: b :: c :: (_ :: _) as rest =>
      group3 rest (String "," (String c (String b (String a acc))))
  | a :: rest => group3 rest (String a acc)
  | [] => acc
  end.

Definition format_thousands (z : Z) : string :=
  let digits := list_ascii_of_string (NilZero.string_of_uint (N.to_uint (Z.abs_N z))) in
  let body := group3 (rev digits) "" in
  if (z <? 0)%Z then String "-" body else body.

End Py.

(* ------------------------------------------------------------------ *)
(** ** ScoringEngine: [analyze_memecoin] and its sub-scores *)

Module Scoring.
Import Py.
Open Scope Q_scope.
Open Scope string_scope.

(** The [analysis] dict built by [analyze_memecoin]. *)
Record analysis : Type := mkAnalysis {
  score : Q;
  decision : string;
  confidence : Q;
  reasons : list string
}.

Definition analysis0 : analysis :=
  {| score := 0; decision := "HOLD"; confidence := 0; reasons := [] |}.

(** The body of the [try] mutates [analysis] step by step; what it has
    written is still there when an exception leaves it. *)
Definition M (A : Type) : Type := analysis -> analysis * result A.

Definition ret {A} (a : A) : M A := fun s => (s, Ok a).

Definition bind {A B} (m : M A) (k : A -> M B) : M B :=
  fun s =>
    match m s with
    | (s', Ok a) => k a s'
    | (s', Raise e) => (s', Raise e)
    end.

Definition lift {A} (r : result A) : M A := fun s => (s, r).

Declare Scope analysis_scope.
Delimit Scope analysis_scope with analysis.
Notation "x <- c ;; k" := (bind c (fun x => k))
  (at level 61, c at next level, right associativity) : analysis_scope.
Notation "c ;; k" := (bind c (fun _ => k))
  (at level 61, right associativity) : analysis_scope.

(** [analysis['score'] += x] *)
Definition add_score (x : Q) : M unit :=
  fun s => ({| score := score s + x; decision := decision s;
               confidence := confidence s; reasons := reasons s |}, Ok tt).

(** [analysis['reasons'].append(r)] *)
Definition append_reason (r : string) (s : analysis) : analysis :=
  {| score := score s; decision := decision s;
     confidence := confidence s; reasons := reasons s ++ [r] |}.

Definition add_reason (r : string) : M unit :=
  fun s => (append_reason r s, Ok tt).

Definition when (b : bool) (m : M unit) : M unit :=
  if b then m else ret tt.

(** [analysis['confidence'] = analysis['score']], then the decision. *)
Definition decide_from_score : M unit :=
  fun s =>
    let s1 := {| score := score s; decision := decision s;
                 confidence := score s; reasons := reasons s |} in
    let d := if Qle_bool 0.7 (score s1) then "BUY"
             else if Qle_bool (score s1) 0.3 then "SELL"
             else "HOLD" in
    ({| score := score s1; decision := d;
        confidence := confidence s1; reasons := reasons s1 |}, Ok tt).

Definition _calculate_liquidity_score (liquidity : Q) : Q :=
  if Qle_bool 50000 liquidity then 1.0
  else if Qle_bool 25000 liquidity then 0.8
  else if Qle_bool 10000 liquidity then 0.6
  else if Qle_bool 5000 liquidity then 0.4
  else 0.2.

(** The body of [_calculate_price_momentum], before its bare [except]. *)
Definition price_momentum_body (pair_data : pyval) : result Q :=
  (price_change <- get pair_data "priceChange" (PyDict []) ;;
   h24_change <- get price_change "h24" (PyInt 0) ;;
   b1 <- gt_lit h24_change 0.5 "float" ;;
   if b1 : bool then Ok 0.9 else
   b2 <- gt_lit h24_change 0.2 "float" ;;
   if b2 : bool then Ok 0.7 else
   b3 <- gt_lit h24_change 0 "int" ;;
   if b3 : bool then Ok 0.5 else
   b4 <- gt_lit h24_change (-0.1) "float" ;;
   if b4 : bool then Ok 0.3 else Ok 0.1)%result.

Definition _calculate_price_momentum (pair_data : pyval) : Q :=
  try_except (price_momentum_body pair_data) 0.5.

Definition volume_body (pair_data : pyval) : result Q :=
  (volume <- get pair_data "volume" (PyDict []) ;;
   h24_volume <- get volume "h24" (PyInt 0) ;;
   b1 <- gt_lit h24_volume 1000000 "int" ;;
   if b1 : bool then Ok 1.0 else
   b2 <- gt_lit h24_volume 500000 "int" ;;
   if b2 : bool then Ok 0.8 else
   b3 <- gt_lit h24_volume 100000 "int" ;;
   if b3 : bool then Ok 0.6 else
   b4 <- gt_lit h24_volume 50000 "int" ;;
   if b4 : bool then Ok 0.4 else Ok 0.2)%result.

Definition _analyze_volume (pair_data : pyval) : Q :=
  try_except (volume_body pair_data) 0.3.

(** [datetime.fromtimestamp(t)] on a machine whose local zone is UTC, in
    microseconds since the epoch: the argument is rounded to a microsecond
    and must fall in the years 1 to 9999.  In another zone Python adds the
    offset of the zone at [t], which a daylight-saving shift changes, and
    the accepted range is that of the platform. *)
Definition fromtimestamp (t : Q) : result Z :=
  let us := round_half_even (t * 1000000) in
  if ((-62135596800000000 <=? us) && (us <=? 253402300799999999))%Z
  then Ok us
  else Raise (ValueError "year is out of range").

Definition social_indicators : list string :=
  ["elon"; "moon"; "doge"; "shib"; "pepe"; "wojak"].

Definition _estimate_social_presence (pair_data : pyval) : result Q :=
  (base_token <- get pair_data "baseToken" (PyDict []) ;;
   symbol_v <- get base_token "symbol" (PyStr "") ;;
   symbol <- lower_of symbol_v ;;
   name_v <- get base_token "name" (PyStr "") ;;
   name <- lower_of name_v ;;
   let matches :=
     List.length
       (filter (fun indicator =>
                  contains indicator symbol || contains indicator name)
               social_indicators) in
   Ok (min2 1.0 (inject_Z (Z.of_nat matches) * 0.2)))%result.

Section Environment.

(** [float(s)] on a string: Python's parser of float literals, [None] when
    it raises [ValueError]. *)
Variable parse_float : string -> option Q.

(** The reading of [datetime.now()], in microseconds since the epoch. *)
Variable now : Z.

(** [float(v)] *)
Definition float_of (v : pyval) : result Q :=
  match v with
  | PyStr s =>
      match parse_float s with
      | Some q => Ok q
      | None =>
          Raise (ValueError ("could not convert string to float: " ++ repr s))
      end
  | _ =>
      match float_operand v with
      | Some r => r
      | None =>
          Raise (TypeError
                   ("float() argument must be a string or a real number, not '"
                    ++ type_name v ++ "'"))
      end
  end.

(** [float(pair_data.get('liquidity', {}).get('usd', 0))] *)
Definition liquidity_usd (pair_data : pyval) : result Q :=
  (liq <- get pair_data "liquidity" (PyDict []) ;;
   usd <- get liq "usd" (PyInt 0) ;;
   float_of usd)%result.

Definition token_age_body (pair_data : pyval) : result (option Q) :=
  (pair_created_at <- get pair_data "pairCreatedAt" PyNone ;;
   if truthy pair_created_at then
     secs <- div_lit pair_created_at 1000 ;;
     created_time <- fromtimestamp secs ;;
     let age_hours := inject_Z (now - created_time) / 1000000 / 3600 in
     Ok (Some (if Qle_bool age_hours 1 then 1.0
               else if Qle_bool age_hours 6 then 0.8
               else if Qle_bool age_hours 24 then 0.6
               else 0.3))
   else Ok None)%result.

(** [None] from the body is the fall-through to the final [return 0.5],
    which the bare [except: pass] reaches too. *)
Definition _analyze_token_age (pair_data : pyval) : Q :=
  match try_except (token_age_body pair_data) None with
  | Some s => s
  | None => 0.5
  end.

(** The [try] block of [analyze_memecoin]. *)
Definition analyze_body (pair_data : pyval) : M unit :=
  (liquidity <- lift (liquidity_usd pair_data) ;;
   let liquidity_score := _calculate_liquidity_score liquidity in
   add_score (liquidity_score * 0.3) ;;
   when (Qlt_bool 0.7 liquidity_score)
        (add_reason ("Good liquidity: $"
                     ++ format_thousands (round_half_even liquidity))) ;;
   let price_change := _calculate_price_momentum pair_data in
   add_score (price_change * 0.25) ;;
   when (Qlt_bool 0.7 price_change) (add_reason "Strong positive momentum") ;;
   let volume_score := _analyze_volume pair_data in
   add_score (volume_score * 0.2) ;;
   when (Qlt_bool 0.6 volume_score) (add_reason "High trading volume") ;;
   let age_score := _analyze_token_age pair_data in
   add_score (age_score * 0.15) ;;
   when (Qlt_bool 0.8 age_score) (add_reason "Fresh token launch") ;;
   social_score <- lift (_estimate_social_presence pair_data) ;;
   add_score (social_score * 0.1) ;;
   decide_from_score)%analysis.

(** [analyze_memecoin]: the [try] block, the handler of [except Exception],
    and [return analysis]. *)
Definition analyze_memecoin (pair_data : pyval) : analysis :=
  match analyze_body pair_data analysis0 with
  | (a, Ok _) => a
  | (a, Raise e) => append_reason ("Analysis error: " ++ str_exn e) a
  end.

(** *** What the specification says of the result *)

(** The score after the first four steps, added to [s] as the code does,
    for a liquidity [l]. *)
Definition four_sub_scores (l : Q) (pair_data : pyval) (s : Q) : Q :=
  s + _calculate_liquidity_score l * 0.3
    + _calculate_price_momentum pair_data * 0.25
    + _analyze_volume pair_data * 0.2
    + _analyze_token_age pair_data * 0.15.

(** The fault that reaches the handler of [except Exception], if any. *)
Definition fault (pair_data : pyval) : option exn :=
  match snd (analyze_body pair_data analysis0) with
  | Ok _ => None
  | Raise e => Some e
  end.

(** The five weighted sub-scores in evaluation order; one whose computation
    faults at the top level is a [Raise]. *)
Definition weighted_sub_scores (pair_data : pyval) : list (result Q) :=
  [ (l <- liquidity_usd pair_data ;;
     Ok (_calculate_liquidity_score l * 0.3))%result;
    Ok (_calculate_price_momentum pair_data * 0.25);
    Ok (_analyze_volume pair_data * 0.2);
    Ok (_analyze_token_age pair_data * 0.15);
    (s <- _estimate_social_presence pair_data ;; Ok (s * 0.1))%result ].

End Environment.

(** The weighted sum accumulated up to the first fault: the sub-scores
    from the fault on contribute nothing. *)
Fixpoint partial_sum (acc : Q) (l : list (result Q)) : Q * option exn :=
  match l with
  | [] => (acc, None)
  | Ok x :: l' => partial_sum (acc + x) l'
  | Raise e :: _ => (acc, Some e)
  end.

(** The decision rule on a result's own score. *)
Definition decision_rule (a : analysis) : Prop :=
  (decision a = "BUY" <-> 0.7 <= score a) /\
  (decision a = "SELL" <-> score a <= 0.3) /\
  (decision a = "HOLD" <-> ~ 0.7 <= score a /\ ~ score a <= 0.3).

(** A record whose fields have the types of the data model, where they are
    present: the liquidity and the base token are dicts, the liquidity in
    USD is a number (an int within the doubles), the symbol and the name
    are strings. *)
Definition is_number (v : pyval) : bool :=
  match float_operand v with Some (Ok _) => true | _ => false end.

Definition is_str (v : pyval) : bool :=
  match v with PyStr _ => true | _ => false end.

Definition field_ok (d : list (string * pyval)) (k : string)
    (ok : pyval -> bool) : bool :=
  match dict_lookup k d with
  | Some v => ok v
  | None => true
  end.

Definition well_typed (pair_data : pyval) : bool :=
  match pair_data with
  | PyDict d =>
      field_ok d "liquidity"
        (fun v => match v with
                  | PyDict l => field_ok l "usd" is_number
                  | _ => false
                  end)
      && field_ok d "baseToken"
           (fun v => match v with
                     | PyDict b =>
                         field_ok b "symbol" is_str && field_ok b "name" is_str
                     | _ => false
                     end)
  | _ => false
  end.

(** [float(s)] of the examples: no string is used as a number there. *)
Definition no_float_strings (s : string) : option Q := None.

(** A record with a well-formed liquidity, momentum and volume whose
    [baseToken] symbol is [null]: the social-presence step faults after the
    first four sub-scores. *)
Definition pair_null_symbol : pyval :=
  PyDict [("liquidity", PyDict [("usd", PyInt 60000)]);
          ("priceChange", PyDict [("h24", PyFloat 0.6)]);
          ("volume", PyDict [("h24", PyInt 2000000)]);
          ("baseToken", PyDict [("symbol", PyNone)])].

(** A record whose [liquidity] is not a dict: the first step faults. *)
Definition pair_bad_liquidity : pyval :=
  PyDict [("liquidity", PyStr "n/a")].

(** A well-formed record. *)
Definition pair_good : pyval :=
  PyDict [("liquidity", PyDict [("usd", PyFloat 1234567.5)]);
          ("priceChange", PyDict [("h24", PyFloat 0.6)]);
          ("volume", PyDict [("h24", PyInt 2000000)]);
          ("pairCreatedAt", PyInt 1700000000000);
          ("baseToken",
           PyDict [("symbol", PyStr "DOGEMOON"); ("name", PyStr "Elon Pepe")])].

End Scoring.

(* ------------------------------------------------------------------ *)
(** ** PortfolioLedger: position sizing, trade execution, valuation *)

Module Ledger.
Import Py.
Open Scope Q_scope.
Open Scope string_scope.

(** A value of [portfolio['positions']]. *)
Record position : Type := mkPosition {
  shares : Q;
  cost_basis : Q;
  entry_time : Z
}.

(** A [trade_record] dict. *)
Record trade_record : Type := mkTrade {
  tr_symbol : string;
  tr_action : string;
  tr_shares : Q;
  tr_price : Q;
  tr_value : Q;
  tr_timestamp : Z
}.

(** The state of a [SimpleAITradingBot]: the [portfolio] dict, the trade
    history and the risk fraction.  [positions] is a Python dict: keys are
    unique and kept in insertion order. *)
Record bot : Type := mkBot {
  cash : Q;
  positions : list (string * position);
  total_value : Q;
  trade_history : list trade_record;
  risk_per_trade : Q
}.

(** [__init__] *)
Definition init (initial_capital : Q) : bot :=
  {| cash := initial_capital; positions := [];
     total_value := initial_capital; trade_history := [];
     risk_per_trade := 0.02 |}.

(** What [execute_trade] returns: a trade record, or the dict
    [{'error': msg}]. *)
Inductive outcome : Type :=
| Executed (r : trade_record)
| Failed (msg : string).

(** [d[k] = v]: in place for a key of the dict, at the end for a new one. *)
Fixpoint dict_set {V} (k : string) (v : V) (d : list (string * V))
  : list (string * V) :=
  match d with
  | [] => [(k, v)]
  | (k', v') :: d' =>
      if String.eqb k k' then (k', v) :: d' else (k', v') :: dict_set k v d'
  end.

(** [del d[k]]: the key is removed. *)
Fixpoint dict_del {V} (k : string) (d : list (string * V))
  : list (string * V) :=
  match d with
  | [] => []
  | (k', v') :: d' =>
      if String.eqb k k' then dict_del k d' else (k', v') :: dict_del k d'
  end.

Definition set_cash (c : Q) (b : bot) : bot :=
  {| cash := c; positions := positions b; total_value := total_value b;
     trade_history := trade_history b; risk_per_trade := risk_per_trade b |}.

Definition set_positions (p : list (string * position)) (b : bot) : bot :=
  {| cash := cash b; positions := p; total_value := total_value b;
     trade_history := trade_history b; risk_per_trade := risk_per_trade b |}.

(** [self.trade_history.append(r)] *)
Definition append_trade (r : trade_record) (b : bot) : bot :=
  {| cash := cash b; positions := positions b; total_value := total_value b;
     trade_history := trade_history b ++ [r];
     risk_per_trade := risk_per_trade b |}.

Definition set_shares (s : Q) (p : position) : position :=
  {| shares := s; cost_basis := cost_basis p; entry_time := entry_time p |}.

Definition set_cost_basis (c : Q) (p : position) : position :=
  {| shares := shares p; cost_basis := c; entry_time := entry_time p |}.

(** [calculate_position_size]; it reads the ledger and writes nothing. *)
Definition calculate_position_size
    (self : bot) (symbol : string) (price stop_loss : Q) : result Q :=
  let risk_amount := cash self * risk_per_trade self in
  let price_risk := Qabs (price - stop_loss) in
  if Qeq_bool price_risk 0 then Ok 0
  else
    (shares <- div risk_amount price_risk ;;
     let max_position_value := cash self * 0.1 in
     max_shares <- div max_position_value price ;;
     Ok (min2 shares max_shares))%result.

(** [execute_trade].  [t_entry] and [t_record] are the readings of
    [datetime.now()] for a new position's [entry_time] and for the trade
    record.  The result carries the ledger as the call leaves it, also when
    it raises. *)
Definition execute_trade
    (t_entry t_record : Z) (self : bot)
    (symbol decision : string) (price amount : Q) : bot * result outcome :=
  let trade_value := amount * price in
  if String.eqb decision "BUY" && Qle_bool trade_value (cash self) then
    let self1 := set_cash (cash self - trade_value) self in
    let record :=
      {| tr_symbol := symbol; tr_action := "BUY"; tr_shares := amount;
         tr_price := price; tr_value := trade_value;
         tr_timestamp := t_record |} in
    match dict_lookup symbol (positions self1) with
    | Some pos =>
        let pos1 := set_shares (shares pos + amount) pos in
        let self2 :=
          set_positions (dict_set symbol pos1 (positions self1)) self1 in
        match div (cost_basis pos1 * (shares pos1 - amount) + trade_value)
                  (shares pos1) with
        | Raise e => (self2, Raise e)
        | Ok cb =>
            let pos2 := set_cost_basis cb pos1 in
            let self3 :=
              set_positions (dict_set symbol pos2 (positions self2)) self2 in
            (append_trade record self3, Ok (Executed record))
        end
    | None =>
        let pos :=
          {| shares := amount; cost_basis := price; entry_time := t_entry |} in
        let self2 :=
          set_positions (dict_set symbol pos (positions self1)) self1 in
        (append_trade record self2, Ok (Executed record))
    end
  else
    (* decision == 'SELL' and symbol in positions *)
    match (if String.eqb decision "SELL"
           then dict_lookup symbol (positions self) else None) with
    | Some position =>
        let amount :=
          if Qlt_bool (shares position) amount then shares position
          else amount in
        let trade_value := amount * price in
        let self1 := set_cash (cash self + trade_value) self in
        let position1 := set_shares (shares position - amount) position in
        let self2 :=
          set_positions (dict_set symbol position1 (positions self1)) self1 in
        let self3 :=
          if Qeq_bool (shares position1) 0
          then set_positions (dict_del symbol (positions self2)) self2
          else self2 in
        let record :=
          {| tr_symbol := symbol; tr_action := "SELL"; tr_shares := amount;
             tr_price := price; tr_value := trade_value;
             tr_timestamp := t_record |} in
        (append_trade record self3, Ok (Executed record))
    | None => (self, Ok (Failed "Trade execution failed"))
    end.

(** [get_portfolio_value]: the loop adds to [total], starting from cash. *)
Definition get_portfolio_value (self : bot) : Q :=
  fold_left (fun total kv => total + shares (snd kv) * cost_basis (snd kv))
            (positions self) (cash self).

(** *** What the specification says of the ledger *)

(** A Python dict holds a key once. *)
Definition dict_wf {V} (d : list (string * V)) : Prop :=
  NoDup (map fst d).

(** The ledger as a call of [execute_trade] leaves it. *)
Definition after_trade
    (t_entry t_record : Z) (self : bot)
    (symbol decision : string) (price amount : Q) : bot :=
  fst (execute_trade t_entry t_record self symbol decision price amount).

(** Ledgers reachable from a new bot by calls of [execute_trade] whose
    amount satisfies [ok]. *)
Inductive reachable (ok : Q -> Prop) (initial_capital : Q) : bot -> Prop :=
| reach_init : reachable ok initial_capital (init initial_capital)
| reach_trade self t_entry t_record symbol decision price amount :
    reachable ok initial_capital self ->
    ok amount ->
    reachable ok initial_capital
      (after_trade t_entry t_record self symbol decision price amount).

Definition any_amount (amount : Q) : Prop := True.
Definition positive_amount (amount : Q) : Prop := 0 < amount.

(** Every key of [positions] has [shares > 0]. *)
Definition all_positive (d : list (string * position)) : Prop :=
  forall symbol pos, dict_lookup symbol d = Some pos -> 0 < shares pos.

Definition positions_positive (self : bot) : Prop :=
  all_positive (positions self).

(** The sum of [shares * cost_basis] over the open positions. *)
Definition sum_cost (d : list (string * position)) : Q :=
  fold_right (fun kv acc => shares (snd kv) * cost_basis (snd kv) + acc) 0 d.

(** A bot that holds 5 shares of X bought at 10, out of a capital of 1000. *)
Definition bot_holding_x : bot :=
  after_trade 0 0 (init 1000) "X" "BUY" 10 5.

(** A new bot after a BUY of amount 0. *)
Definition bot_zero_x : bot :=
  after_trade 0 0 (init 1000) "X" "BUY" 10 0.

(** A bot with two open positions. *)
Definition bot_two_positions : bot :=
  after_trade 1 1 bot_holding_x "Y" "BUY" 2.5 40.

End Ledger.

(* ------------------------------------------------------------------ *)
(** ** Reading a record: what the sub-scores see *)

Module Reading.
Import Py Scoring.
Open Scope Q_scope.
Open Scope string_scope.

(** The number that [pair_data.get(outer, {}).get(inner, 0)] reads, when
    both reads succeed and give a number. *)
Definition nested_number (pair_data : pyval) (outer inner : string)
  : option Q :=
  match get pair_data outer (PyDict []) with
  | Ok v =>
      match get v inner (PyInt 0) with
      | Ok h => num_value h
      | Raise _ => None
      end
  | Raise _ => None
  end.

(** The steps of [_calculate_price_momentum] on a number. *)
Definition momentum_bucket (x : Q) : Q :=
  if Qlt_bool 0.5 x then 0.9
  else if Qlt_bool 0.2 x then 0.7
  else if Qlt_bool 0 x then 0.5
  else if Qlt_bool (-0.1) x then 0.3
  else 0.1.

(** The steps of [_analyze_volume] on a number. *)
Definition volume_bucket (x : Q) : Q :=
  if Qlt_bool 1000000 x then 1.0
  else if Qlt_bool 500000 x then 0.8
  else if Qlt_bool 100000 x then 0.6
  else if Qlt_bool 50000 x then 0.4
  else 0.2.

(** The records on which the liquidity step reads a number. *)
Definition liquidity_readable (parse_float : string -> option Q)
    (pair_data : pyval) : bool :=
  match pair_data with
  | PyDict d =>
      match dict_lookup "liquidity" d with
      | None => true
      | Some (PyDict l) =>
          match dict_lookup "usd" l with
          | None => true
          | Some (PyStr s) =>
              match parse_float s with Some _ => true | None => false end
          | Some v => is_number v
          end
      | Some _ => false
      end
  | _ => false
  end.

(** The records on which the social-presence step reads two strings. *)
Definition social_readable (pair_data : pyval) : bool :=
  match pair_data with
  | PyDict d =>
      field_ok d "baseToken"
        (fun v => match v with
                  | PyDict b =>
                      field_ok b "symbol" is_str && field_ok b "name" is_str
                  | _ => false
                  end)
  | _ => false
  end.

(** The reason that a threshold appends, if its test holds. *)
Definition reason_if (b : bool) (r : string) : list string :=
  if b then [r] else [].

(** The reasons of the four thresholds, in the order of the steps, for a
    liquidity [l]. *)
Definition threshold_reasons (now : Z) (l : Q) (pair_data : pyval)
  : list string :=
  (reason_if (Qlt_bool 0.7 (_calculate_liquidity_score l))
             ("Good liquidity: $" ++ format_thousands (round_half_even l))
   ++ reason_if (Qlt_bool 0.7 (_calculate_price_momentum pair_data))
                "Strong positive momentum"
   ++ reason_if (Qlt_bool 0.6 (_analyze_volume pair_data))
                "High trading volume"
   ++ reason_if (Qlt_bool 0.8 (_analyze_token_age now pair_data))
                "Fresh token launch")%list.

(** The reason that the handler appends for a fault. *)
Definition fault_reason (f : option exn) : list string :=
  match f with
  | Some e => ["Analysis error: " ++ str_exn e]
  | None => []
  end.

(** A record whose [priceChange] is a string: the momentum step faults
    inside [_calculate_price_momentum]. *)
Definition pair_price_change_text : pyval :=
  PyDict [("priceChange", PyStr "up")].

(** A record with none of the five fields. *)
Definition no_fields (d : list (string * pyval)) : Prop :=
  dict_lookup "liquidity" d = None /\
  dict_lookup "priceChange" d = None /\
  dict_lookup "volume" d = None /\
  dict_lookup "pairCreatedAt" d = None /\
  dict_lookup "baseToken" d = None.

End Reading.

(* ------------------------------------------------------------------ *)
(** ** DexScreenerAPI: the pairs read from the market-data service *)

Module Api.
Import Py.
Open Scope Q_scope.
Open Scope string_scope.

(** [self.base_url] *)
Definition base_url : string := "https://api.dexscreener.com/latest/dex".

(** [l[:n]] on a sequence: a negative [n] counts from the end. *)
Definition slice_to {A} (n : Z) (l : list A) : list A :=
  if (0 <=? n)%Z then firstn (Z.to_nat n) l
  else firstn (List.length l - Z.to_nat (- n)) l.

(** [v[:n]] on a JSON value: lists and strings are sliced, the other
    values raise. *)
Definition py_slice_to (v : pyval) (n : Z) : result pyval :=
  match v with
  | PyList l => Ok (PyList (slice_to n l))
  | PyStr s =>
      Ok (PyStr (string_of_list_ascii (slice_to n (list_ascii_of_string s))))
  | PyDict _ => Raise (TypeError "unhashable type: 'slice'")
  | _ =>
      Raise (TypeError ("'" ++ type_name v ++ "' object is not subscriptable"))
  end.

(** The values that [for pair in v] goes through, for a list or a
    string. *)
Definition items (v : pyval) : list pyval :=
  match v with
  | PyList l => l
  | PyStr s => map (fun c => PyStr (String c "")) (list_ascii_of_string s)
  | _ => []
  end.

(** [x - v] for a float [x]: an int [v] is converted to a float. *)
Definition float_minus (x : Q) (v : pyval) : result Q :=
  match float_operand v with
  | Some r => (c <- r ;; Ok (x - c))%result
  | None =>
      Raise (TypeError ("unsupported operand type(s) for -: 'float' and '"
                        ++ type_name v ++ "'"))
  end.

(** [datetime.now().timestamp() * 1000] for a reading in microseconds. *)
Definition timestamp_ms (reading : Z) : Q := inject_Z reading / 1000.

Section Network.

(** The JSON of the response to a GET of the URL, or the exception of
    [requests.get] or of [response.json()]. *)
Variable fetch : string -> result pyval.

(** The readings of [datetime.now()], one per turn of the loop. *)
Variable now : nat -> Z.

(** The loop of [get_new_pairs], from its turn [i]. *)
Fixpoint recent_loop (i : nat) (pairs recent_pairs : list pyval)
  : result (list pyval) :=
  match pairs with
  | [] => Ok recent_pairs
  | pair_ :: rest =>
      (created_at <- get pair_ "pairCreatedAt" (PyInt 0) ;;
       age <- float_minus (timestamp_ms (now i)) created_at ;;
       recent_loop (S i) rest
         (if Qlt_bool age (24 * 60 * 60 * 1000)
          then (recent_pairs ++ [pair_])%list else recent_pairs))%result
  end.

Definition new_pairs_body (limit : Z) : result (list pyval) :=
  (data <- fetch (base_url ++ "/search/?q=created") ;;
   all <- get data "pairs" (PyList []) ;;
   pairs <- py_slice_to all limit ;;
   recent_loop 0 (items pairs) [])%result.

(** [get_new_pairs]: the pairs returned and the lines printed. *)
Definition get_new_pairs (limit : Z) : list pyval * list string :=
  match new_pairs_body limit with
  | Ok recent_pairs => (recent_pairs, [])
  | Raise e => ([], ["Error fetching pairs: " ++ str_exn e])
  end.

Definition trending_body : result pyval :=
  (data <- fetch (base_url ++ "/search/?q=volume") ;;
   all <- get data "pairs" (PyList []) ;;
   py_slice_to all 20)%result.

(** [get_trending_pairs]: the value returned and the lines printed. *)
Definition get_trending_pairs : pyval * list string :=
  match trending_body with
  | Ok pairs => (pairs, [])
  | Raise e => (PyList [], ["Error fetching trending: " ++ str_exn e])
  end.

End Network.

(** *** What the loop keeps *)

(** The creation time that the loop reads in a pair, when it is a number
    that the subtraction takes. *)
Definition created_at (pair_ : pyval) : option Q :=
  match get pair_ "pairCreatedAt" (PyInt 0) with
  | Ok v =>
      match float_operand v with
      | Some (Ok c) => Some c
      | _ => None
      end
  | Raise _ => None
  end.

(** A pair created less than 24 hours before a reading of the clock. *)
Definition recent_at (reading : Z) (pair_ : pyval) : Prop :=
  exists c, created_at pair_ = Some c /\
            timestamp_ms reading - c < 24 * 60 * 60 * 1000.

(** The test of the loop on a pair whose creation time it can read. *)
Definition is_recent (reading : Z) (pair_ : pyval) : bool :=
  match created_at pair_ with
  | Some c => Qlt_bool (timestamp_ms reading - c) (24 * 60 * 60 * 1000)
  | None => false
  end.

(** The pairs that are recent at the reading of their own turn, for a
    list that the loop takes from its turn [i]. *)
Fixpoint recent_from (now : nat -> Z) (i : nat) (pairs : list pyval)
  : list pyval :=
  match pairs with
  | [] => []
  | pair_ :: rest =>
      if is_recent (now i) pair_ then pair_ :: recent_from now (S i) rest
      else recent_from now (S i) rest
  end.

(** A service that answers every request with the same JSON value. *)
Definition answer (data : pyval) (url : string) : result pyval := Ok data.

(** A clock that stands at 1700000000 seconds. *)
Definition still_clock (i : nat) : Z := 1700000000000000.

(** Three pairs: a recent one, an old one, and one without a creation
    time. *)
Definition response_three : pyval :=
  PyDict [("pairs",
           PyList [PyDict [("pairCreatedAt", PyInt 1699990000000)];
                   PyDict [("pairCreatedAt", PyInt 1600000000000)];
                   PyDict [("chainId", PyStr "solana")]])].

(** Two pairs, the second with a creation time that is a string. *)
Definition response_bad_pair : pyval :=
  PyDict [("pairs",
           PyList [PyDict [("pairCreatedAt", PyInt 1699990000000)];
                   PyDict [("pairCreatedAt", PyStr "2023-11-14")]])].

End Api.

(* ------------------------------------------------------------------ *)
(** ** Accounting: what a ledger and its records are worth *)

Module Accounting.
Import Py Ledger.
Open Scope Q_scope.
Open Scope string_scope.

(** The value of a position at its cost basis. *)
Definition position_value (p : position) : Q := shares p * cost_basis p.

(** A record whose value is its shares times its price, of a BUY or a
    SELL. *)
Definition record_ok (r : trade_record) : Prop :=
  tr_value r = tr_shares r * tr_price r /\
  (tr_action r = "BUY" \/ tr_action r = "SELL").

(** The records that a call of [execute_trade] appends. *)
Definition appended (r : result outcome) : list trade_record :=
  match r with
  | Ok (Executed record) => [record]
  | _ => []
  end.

End Accounting.

(* ------------------------------------------------------------------ *)
(** ** Properties of the scoring engine *)

Module ScoringFacts.
Import Py Scoring.
Open Scope Q_scope.
Open Scope string_scope.

Section Environment.

Variable parse_float : string -> option Q.
Variable now : Z.

#[local] Abbreviation analyze_body := (analyze_body parse_float now).
#[local] Abbreviation analyze_memecoin := (analyze_memecoin parse_float now).
#[local] Abbreviation liquidity_usd := (liquidity_usd parse_float).
#[local] Abbreviation _analyze_token_age := (_analyze_token_age now).
#[local] Abbreviation fault := (fault parse_float now).
#[local] Abbreviation weighted_sub_scores :=
  (weighted_sub_scores parse_float now).

#[local] Abbreviation four := (four_sub_scores now).

Lemma when_add_reason b r s :
  exists rs, when b (add_reason r) s =
             ({| score := score s; decision := decision s;
                 confidence := confidence s; reasons := reasons s ++ rs |},
              Ok tt).
Proof.
  destruct b; simpl.
  - exists [r]. reflexivity.
  - exists []. rewrite app_nil_r. destruct s; reflexivity.
Qed.

(** A fault of the liquidity step leaves [analysis] as it was. *)
Lemma analyze_body_liquidity_fault pair_data e s :
  liquidity_usd pair_data = Raise e ->
  analyze_body pair_data s = (s, Raise e).
Proof.
  intros H. unfold Scoring.analyze_body, bind, lift. rewrite H. reflexivity.
Qed.

(** The state after the first four steps. *)
Lemma analyze_body_four pair_data l s :
  liquidity_usd pair_data = Ok l ->
  exists rs,
    analyze_body pair_data s =
    ((social_score <- lift (_estimate_social_presence pair_data) ;;
      add_score (social_score * 0.1) ;;
      decide_from_score)%analysis
       {| score := four l pair_data (score s); decision := decision s;
          confidence := confidence s; reasons := reasons s ++ rs |}).
Proof.
  intros H. unfold Scoring.analyze_body.
  unfold bind at 1. unfold lift at 1. rewrite H.
  unfold bind at 1. unfold add_score at 1.
  unfold bind at 1.
  match goal with |- context [when ?b (add_reason ?r) ?s0] =>
    destruct (when_add_reason b r s0) as [rs1 ->] end.
  cbn [score decision confidence reasons].
  unfold bind at 1. unfold add_score at 1.
  unfold bind at 1.
  match goal with |- context [when ?b (add_reason ?r) ?s0] =>
    destruct (when_add_reason b r s0) as [rs2 ->] end.
  cbn [score decision confidence reasons].
  unfold bind at 1. unfold add_score at 1.
  unfold bind at 1.
  match goal with |- context [when ?b (add_reason ?r) ?s0] =>
    destruct (when_add_reason b r s0) as [rs3 ->] end.
  cbn [score decision confidence reasons].
  unfold bind at 1. unfold add_score at 1.
  unfold bind at 1.
  match goal with |- context [when ?b (add_reason ?r) ?s0] =>
    destruct (when_add_reason b r s0) as [rs4 ->] end.
  cbn [score decision confidence reasons].
  exists (rs1 ++ rs2 ++ rs3 ++ rs4)%list.
  rewrite <- !app_assoc. reflexivity.
Qed.

(** A fault of the social-presence step leaves the four sub-scores added
    and nothing else written. *)
Lemma analyze_body_social_fault pair_data l e s :
  liquidity_usd pair_data = Ok l ->
  _estimate_social_presence pair_data = Raise e ->
  exists rs,
    analyze_body pair_data s =
    ({| score := four l pair_data (score s); decision := decision s;
        confidence := confidence s; reasons := reasons s ++ rs |}, Raise e).
Proof.
  intros Hl Hs. destruct (analyze_body_four pair_data s Hl) as [rs ->].
  exists rs. unfold bind, lift. rewrite Hs. reflexivity.
Qed.

(** Without a fault the decision is taken on the full weighted sum. *)
Lemma analyze_body_ok pair_data l soc s :
  liquidity_usd pair_data = Ok l ->
  _estimate_social_presence pair_data = Ok soc ->
  exists rs,
    analyze_body pair_data s =
    (let sc := four l pair_data (score s) + soc * 0.1 in
     {| score := sc;
        decision := if Qle_bool 0.7 sc then "BUY"
                    else if Qle_bool sc 0.3 then "SELL" else "HOLD";
        confidence := sc; reasons := reasons s ++ rs |}, Ok tt).
Proof.
  intros Hl Hs. destruct (analyze_body_four pair_data s Hl) as [rs ->].
  exists rs. unfold bind, lift. rewrite Hs. reflexivity.
Qed.

(** The only steps whose fault reaches the handler are the first and the
    last. *)
Lemma fault_cases pair_data :
  (exists e, liquidity_usd pair_data = Raise e /\ fault pair_data = Some e) \/
  (exists l e, liquidity_usd pair_data = Ok l /\
               _estimate_social_presence pair_data = Raise e /\
               fault pair_data = Some e) \/
  (exists l soc, liquidity_usd pair_data = Ok l /\
                 _estimate_social_presence pair_data = Ok soc /\
                 fault pair_data = None).
Proof.
  unfold Scoring.fault.
  destruct (liquidity_usd pair_data) as [l|e] eqn:Hl.
  - destruct (_estimate_social_presence pair_data) as [soc|e] eqn:Hs.
    + right; right. exists l, soc.
      destruct (analyze_body_ok pair_data analysis0 Hl Hs) as [rs ->].
      auto.
    + right; left. exists l, e.
      destruct (analyze_body_social_fault pair_data analysis0 Hl Hs)
        as [rs ->].
      auto.
  - left. exists e.
    rewrite (analyze_body_liquidity_fault pair_data analysis0 Hl). auto.
Qed.

(** No fault reaches the handler on a record whose fields have the types
    of the data model. *)
Lemma well_typed_liquidity pair_data :
  well_typed pair_data = true -> exists l, liquidity_usd pair_data = Ok l.
Proof.
  destruct pair_data as [| | | | | |d]; try discriminate.
  unfold well_typed, field_ok, Scoring.liquidity_usd, get.
  intros H. apply andb_prop in H as [H _]. cbn [rbind].
  destruct (dict_lookup "liquidity" d) as [[| | | | | |l]|];
    try discriminate; cbn [rbind].
  - destruct (dict_lookup "usd" l) as [v|]; [|eexists; reflexivity].
    unfold is_number in H. unfold Scoring.float_of.
    destruct v; cbn [float_operand option_map num_value] in H |- *;
      try discriminate; try (eexists; reflexivity).
    destruct (int_to_float z) as [q|e]; [eexists; reflexivity | discriminate].
  - eexists; reflexivity.
Qed.

Lemma well_typed_social pair_data :
  well_typed pair_data = true ->
  exists soc, _estimate_social_presence pair_data = Ok soc.
Proof.
  destruct pair_data as [| | | | | |d]; try discriminate.
  unfold well_typed, field_ok, _estimate_social_presence, get.
  intros H. apply andb_prop in H as [_ H]. cbn [rbind].
  destruct (dict_lookup "baseToken" d) as [[| | | | | |b]|];
    try discriminate; cbn [rbind dict_lookup].
  - apply andb_prop in H as [Hs Hn].
    destruct (dict_lookup "symbol" b) as [[| | | |sy| |]|];
      try discriminate; cbn [rbind lower_of];
      (destruct (dict_lookup "name" b) as [[| | | |na| |]|];
       try discriminate; cbn [rbind lower_of]; eexists; reflexivity).
  - eexists; reflexivity.
Qed.

Lemma well_typed_no_fault pair_data :
  well_typed pair_data = true -> fault pair_data = None.
Proof.
  intros H.
  destruct (well_typed_liquidity pair_data H) as [l Hl].
  destruct (well_typed_social pair_data H) as [soc Hs].
  destruct (fault_cases pair_data)
    as [(e & Hl' & _) | [(l' & e & _ & Hs' & _) | (l' & soc' & _ & _ & Hf)]];
    congruence.
Qed.

Lemma when_reason_if b r s :
  when b (add_reason r) s =
  ({| score := score s; decision := decision s;
      confidence := confidence s;
      reasons := reasons s ++ Reading.reason_if b r |}, Ok tt).
Proof.
  destruct b; simpl; [reflexivity|].
  rewrite app_nil_r. destruct s; reflexivity.
Qed.

(** The reasons after the first four steps are those of the thresholds. *)
Lemma analyze_body_four_reasons pair_data l s :
  liquidity_usd pair_data = Ok l ->
  analyze_body pair_data s =
  ((social_score <- lift (_estimate_social_presence pair_data) ;;
    add_score (social_score * 0.1) ;;
    decide_from_score)%analysis
     {| score := four l pair_data (score s); decision := decision s;
        confidence := confidence s;
        reasons := reasons s ++ Reading.threshold_reasons now l pair_data |}).
Proof.
  intros H. unfold Scoring.analyze_body, Reading.threshold_reasons.
  unfold bind at 1. unfold lift at 1. rewrite H.
  unfold bind at 1. unfold add_score at 1.
  unfold bind at 1. rewrite when_reason_if.
  cbn [score decision confidence reasons].
  unfold bind at 1. unfold add_score at 1.
  unfold bind at 1. rewrite when_reason_if.
  cbn [score decision confidence reasons].
  unfold bind at 1. unfold add_score at 1.
  unfold bind at 1. rewrite when_reason_if.
  cbn [score decision confidence reasons].
  unfold bind at 1. unfold add_score at 1.
  unfold bind at 1. rewrite when_reason_if.
  cbn [score decision confidence reasons].
  rewrite <- !app_assoc. reflexivity.
Qed.

(** The reasons of an analysis: those of the thresholds, then that of the
    fault when there is one. *)
Lemma analyze_memecoin_reasons pair_data :
  reasons (analyze_memecoin pair_data)
  = (match liquidity_usd pair_data with
     | Ok l => Reading.threshold_reasons now l pair_data
     | Raise _ => []
     end ++ Reading.fault_reason (fault pair_data))%list.
Proof.
  unfold Scoring.analyze_memecoin, Scoring.fault.
  destruct (liquidity_usd pair_data) as [l|e] eqn:Hl.
  - rewrite (analyze_body_four_reasons pair_data analysis0 Hl).
    unfold bind, lift.
    destruct (_estimate_social_presence pair_data) as [soc|e];
      cbn; [rewrite app_nil_r|]; reflexivity.
  - rewrite (analyze_body_liquidity_fault pair_data analysis0 Hl).
    reflexivity.
Qed.

(** C1, amended.  [analyze_memecoin] returns an analysis for every record
    (it is a total function: nothing is raised to the caller).  A fault
    that reaches its handler, from the liquidity step or the
    social-presence step, is recorded as the last reason string,
    "Analysis error: " followed by the text of the exception; the score is
    the weighted sum accumulated before that fault, the later sub-scores
    contributing 0; the other reasons are those of the thresholds.  A fault
    inside the momentum, the volume or the age step does not reach the
    handler: the step returns its fallback 0.5, 0.3 or 0.5, the later steps
    still add, and no reason records it. *)
Theorem analyze_memecoin_best_effort pair_data :
  let a := analyze_memecoin pair_data in
  let (partial, f) := partial_sum 0 (weighted_sub_scores pair_data) in
  score a = partial /\
  fault pair_data = f /\
  reasons a
  = (match liquidity_usd pair_data with
     | Ok l => Reading.threshold_reasons now l pair_data
     | Raise _ => []
     end ++ Reading.fault_reason f)%list /\
  (forall e, price_momentum_body pair_data = Raise e ->
             _calculate_price_momentum pair_data = 0.5) /\
  (forall e, volume_body pair_data = Raise e ->
             _analyze_volume pair_data = 0.3) /\
  (forall e, token_age_body now pair_data = Raise e ->
             _analyze_token_age pair_data = 0.5).
Proof.
  assert (Hinner :
    (forall e, price_momentum_body pair_data = Raise e ->
               _calculate_price_momentum pair_data = 0.5) /\
    (forall e, volume_body pair_data = Raise e ->
               _analyze_volume pair_data = 0.3) /\
    (forall e, token_age_body now pair_data = Raise e ->
               _analyze_token_age pair_data = 0.5)).
  { unfold _calculate_price_momentum, _analyze_volume,
      Scoring._analyze_token_age.
    repeat split; intros e ->; reflexivity. }
  pose proof (analyze_memecoin_reasons pair_data) as Hreasons.
  revert Hreasons.
  unfold Scoring.analyze_memecoin, Scoring.weighted_sub_scores.
  destruct (fault_cases pair_data)
    as [(e & Hl & Hf) | [(l & e & Hl & Hs & Hf) | (l & soc & Hl & Hs & Hf)]];
    rewrite Hf, Hl; cbn [partial_sum rbind].
  - rewrite (analyze_body_liquidity_fault pair_data analysis0 Hl).
    intros Hreasons. repeat split; try exact Hreasons; apply Hinner.
  - rewrite Hs; cbn [partial_sum rbind].
    destruct (analyze_body_social_fault pair_data analysis0 Hl Hs) as [rs ->].
    intros Hreasons. repeat split; try exact Hreasons; apply Hinner.
  - rewrite Hs; cbn [partial_sum rbind].
    destruct (analyze_body_ok pair_data analysis0 Hl Hs) as [rs ->].
    intros Hreasons. repeat split; try exact Hreasons; apply Hinner.
Qed.

(** C6, amended.  When no fault reaches the handler, the decision follows
    the rule on the final score: BUY iff score >= 0.7, SELL iff
    score <= 0.3, HOLD otherwise. *)
Theorem decision_rule_without_fault pair_data :
  fault pair_data = None ->
  decision_rule (analyze_memecoin pair_data).
Proof.
  intros Hf. unfold Scoring.analyze_memecoin.
  destruct (fault_cases pair_data)
    as [(e & _ & Hf') | [(l & e & _ & _ & Hf') | (l & soc & Hl & Hs & _)]];
    try congruence.
  destruct (analyze_body_ok pair_data analysis0 Hl Hs) as [rs ->].
  cbv zeta. unfold decision_rule. cbn [score decision].
  set (sc := four l pair_data (score analysis0) + soc * 0.1).
  destruct (Qle_bool 0.7 sc) eqn:Hbuy.
  - apply Qle_bool_iff in Hbuy.
    repeat split; intros; try discriminate; try assumption; try lra;
      try (exfalso; tauto).
  - assert (Hnb : ~ 0.7 <= sc)
      by (intros H; apply Qle_bool_iff in H; congruence).
    destruct (Qle_bool sc 0.3) eqn:Hsell.
    + apply Qle_bool_iff in Hsell.
      repeat split; intros; try discriminate; try assumption;
        try contradiction; try (exfalso; tauto).
    + assert (Hns : ~ sc <= 0.3)
        by (intros H; apply Qle_bool_iff in H; congruence).
      repeat split; intros; try discriminate; try assumption;
        try contradiction.
Qed.

(** C7, amended.  When no fault reaches the handler, the confidence is the
    score. *)
Theorem confidence_is_score_without_fault pair_data :
  fault pair_data = None ->
  confidence (analyze_memecoin pair_data) = score (analyze_memecoin pair_data).
Proof.
  intros Hf. unfold Scoring.analyze_memecoin.
  destruct (fault_cases pair_data)
    as [(e & _ & Hf') | [(l & e & _ & _ & Hf') | (l & soc & Hl & Hs & _)]];
    try congruence.
  destruct (analyze_body_ok pair_data analysis0 Hl Hs) as [rs ->].
  reflexivity.
Qed.

(** C10.  When a fault reaches the handler, the result keeps the initial
    decision HOLD and confidence 0, whatever the partial score. *)
Theorem fault_keeps_hold pair_data e :
  fault pair_data = Some e ->
  decision (analyze_memecoin pair_data) = "HOLD" /\
  confidence (analyze_memecoin pair_data) = 0.
Proof.
  intros Hf. unfold Scoring.analyze_memecoin.
  destruct (fault_cases pair_data)
    as [(e' & Hl & _) | [(l & e' & Hl & Hs & _) | (l & soc & _ & _ & Hf')]];
    try congruence.
  - rewrite (analyze_body_liquidity_fault pair_data analysis0 Hl).
    split; reflexivity.
  - destruct (analyze_body_social_fault pair_data analysis0 Hl Hs) as [rs ->].
    split; reflexivity.
Qed.

End Environment.

(** The boundaries of the rule: 0.7 is a BUY, 0.3 a SELL, 0.5 a HOLD. *)
Example decision_boundaries :
  decision (fst (decide_from_score (mkAnalysis 0.7 "HOLD" 0 []))) = "BUY" /\
  decision (fst (decide_from_score (mkAnalysis 0.3 "HOLD" 0 []))) = "SELL" /\
  decision (fst (decide_from_score (mkAnalysis 0.5 "HOLD" 0 []))) = "HOLD".
Proof. repeat split. Qed.

(** The record with a null symbol: the fault is the missing [lower], and
    the four sub-scores already added make 0.8. *)
Example null_symbol_analysis :
  analyze_memecoin no_float_strings 0 pair_null_symbol =
  {| score := 0 + 1.0 * 0.3 + 0.9 * 0.25 + 1.0 * 0.2 + 0.5 * 0.15;
     decision := "HOLD"; confidence := 0;
     reasons := ["Good liquidity: $60,000"; "Strong positive momentum";
                 "High trading volume";
                 "Analysis error: 'NoneType' object has no attribute 'lower'"]
  |}.
Proof. reflexivity. Qed.

(** A liquidity that is not a dict: the fault comes before any sub-score,
    and the score is 0. *)
Example bad_liquidity_analysis :
  analyze_memecoin no_float_strings 0 pair_bad_liquidity =
  {| score := 0; decision := "HOLD"; confidence := 0;
     reasons := ["Analysis error: 'str' object has no attribute 'get'"] |}.
Proof. reflexivity. Qed.

(** C1 as stated fails: on a record whose [priceChange] is a string the
    momentum step faults, no reason string records the fault, and the
    score goes beyond the 0.06 accumulated before it: the momentum fallback
    and the later sub-scores are added. *)
Lemma inner_fault_leaves_no_reason :
  price_momentum_body Reading.pair_price_change_text
  = Raise (AttributeError "str" "get") /\
  reasons (analyze_memecoin no_float_strings 0
             Reading.pair_price_change_text) = [] /\
  0 + _calculate_liquidity_score 0 * 0.3 == 0.06 /\
  0.06 < score (analyze_memecoin no_float_strings 0
                  Reading.pair_price_change_text).
Proof.
  repeat split.
Qed.

(** C6 as stated fails: the partial score 0.8 is at least 0.7 and the
    decision is HOLD, not BUY. *)
Lemma decision_rule_fails_on_fault :
  ~ decision_rule (analyze_memecoin no_float_strings 0 pair_null_symbol).
Proof.
  rewrite null_symbol_analysis. unfold decision_rule. cbn [score decision].
  intros [[_ H] _].
  assert (Hd : "HOLD" = "BUY") by (apply H; vm_compute; discriminate).
  discriminate Hd.
Qed.

(** C7 as stated fails: the confidence is 0 and the score is 0.8. *)
Lemma confidence_differs_on_fault :
  ~ confidence (analyze_memecoin no_float_strings 0 pair_null_symbol)
    == score (analyze_memecoin no_float_strings 0 pair_null_symbol).
Proof.
  rewrite null_symbol_analysis. cbn [score confidence].
  vm_compute. discriminate.
Qed.

Lemma decision_rule_without_fault_witness :
  fault no_float_strings 1700000000000000 pair_good = None /\
  decision_rule (analyze_memecoin no_float_strings 1700000000000000 pair_good).
Proof.
  split.
  - reflexivity.
  - apply (decision_rule_without_fault
             no_float_strings 1700000000000000 pair_good).
    reflexivity.
Defined.

Lemma confidence_is_score_without_fault_witness :
  fault no_float_strings 1700000000000000 pair_good = None /\
  confidence (analyze_memecoin no_float_strings 1700000000000000 pair_good)
  = score (analyze_memecoin no_float_strings 1700000000000000 pair_good).
Proof.
  split.
  - reflexivity.
  - apply (confidence_is_score_without_fault
             no_float_strings 1700000000000000 pair_good).
    reflexivity.
Defined.

Lemma fault_keeps_hold_witness :
  fault no_float_strings 0 pair_null_symbol
  = Some (AttributeError "NoneType" "lower") /\
  decision (analyze_memecoin no_float_strings 0 pair_null_symbol) = "HOLD" /\
  confidence (analyze_memecoin no_float_strings 0 pair_null_symbol) = 0.
Proof.
  split.
  - reflexivity.
  - apply (@fault_keeps_hold no_float_strings 0 pair_null_symbol
             (AttributeError "NoneType" "lower")).
    reflexivity.
Defined.

End ScoringFacts.

(* ------------------------------------------------------------------ *)
(** ** Properties of the ledger *)

Module LedgerFacts.
Import Py Ledger.
Open Scope Q_scope.
Open Scope string_scope.

(** *** Dicts as association lists *)

Section Dict.

Context {V : Type}.
Implicit Types (d : list (string * V)) (k : string) (v : V).

Lemma lookup_keys k d :
  dict_lookup k d = None <-> ~ In k (map fst d).
Proof.
  induction d as [|[k' v'] d IH]; simpl.
  - tauto.
  - destruct (String.eqb_spec k k') as [->|Hne].
    + split; [discriminate | intros H; exfalso; apply H; auto].
    + rewrite IH. split.
      * intros H [Heq|Hin]; [congruence | tauto].
      * tauto.
Qed.

Lemma lookup_set_same k v d :
  dict_lookup k (dict_set k v d) = Some v.
Proof.
  induction d as [|[k' v'] d IH]; simpl.
  - rewrite String.eqb_refl. reflexivity.
  - destruct (String.eqb_spec k k') as [->|Hne]; simpl.
    + rewrite String.eqb_refl. reflexivity.
    + destruct (String.eqb_spec k k'); [contradiction | exact IH].
Qed.

Lemma lookup_set_other k k' v d :
  k' <> k -> dict_lookup k' (dict_set k v d) = dict_lookup k' d.
Proof.
  intros Hne. induction d as [|[k0 v0] d IH]; simpl.
  - destruct (String.eqb_spec k' k); [contradiction | reflexivity].
  - destruct (String.eqb_spec k k0) as [->|Hk]; simpl.
    + destruct (String.eqb_spec k' k0); [contradiction | reflexivity].
    + destruct (String.eqb_spec k' k0); [reflexivity | exact IH].
Qed.

Lemma lookup_del_other k k' d :
  k' <> k -> dict_lookup k' (dict_del k d) = dict_lookup k' d.
Proof.
  intros Hne. induction d as [|[k0 v0] d IH]; simpl.
  - reflexivity.
  - destruct (String.eqb_spec k k0) as [->|Hk]; simpl.
    + destruct (String.eqb_spec k' k0); [contradiction | exact IH].
    + destruct (String.eqb_spec k' k0); [reflexivity | exact IH].
Qed.

(** Deleting a key removes it. *)
Lemma lookup_del_same k d :
  dict_lookup k (dict_del k d) = None.
Proof.
  induction d as [|[k0 v0] d IH]; simpl.
  - reflexivity.
  - destruct (String.eqb_spec k k0) as [->|Hk]; simpl.
    + exact IH.
    + destruct (String.eqb_spec k k0); [contradiction | exact IH].
Qed.

Lemma keys_set_present k v d :
  In k (map fst d) -> map fst (dict_set k v d) = map fst d.
Proof.
  induction d as [|[k0 v0] d IH]; simpl.
  - contradiction.
  - intros Hin. destruct (String.eqb_spec k k0) as [->|Hk]; simpl.
    + reflexivity.
    + f_equal. apply IH. destruct Hin; [congruence | assumption].
Qed.

Lemma keys_set_absent k v d :
  ~ In k (map fst d) -> map fst (dict_set k v d) = (map fst d ++ [k])%list.
Proof.
  induction d as [|[k0 v0] d IH]; simpl.
  - reflexivity.
  - intros Hin. destruct (String.eqb_spec k k0) as [->|Hk]; simpl.
    + exfalso; auto.
    + f_equal. apply IH. tauto.
Qed.

Lemma dict_wf_set k v d :
  dict_wf d -> dict_wf (dict_set k v d).
Proof.
  unfold dict_wf. intros Hwf.
  destruct (in_dec string_dec k (map fst d)) as [Hin|Hnin].
  - rewrite keys_set_present by assumption. assumption.
  - rewrite keys_set_absent by assumption.
    apply NoDup_app; [assumption | repeat constructor; intros [] | ].
    intros x Hx [<-|[]]. contradiction.
Qed.

Lemma keys_del_incl k d x :
  In x (map fst (dict_del k d)) -> In x (map fst d).
Proof.
  induction d as [|[k0 v0] d IH]; simpl.
  - tauto.
  - destruct (String.eqb_spec k k0); simpl; tauto.
Qed.

Lemma dict_wf_del k d :
  dict_wf d -> dict_wf (dict_del k d).
Proof.
  unfold dict_wf. induction d as [|[k0 v0] d IH]; simpl; intros Hwf.
  - constructor.
  - inversion Hwf as [|? ? Hnin Hd]; subst.
    destruct (String.eqb_spec k k0); simpl.
    + auto.
    + constructor; [|auto].
      intros Hin. apply Hnin. eapply keys_del_incl; eassumption.
Qed.

End Dict.

(** *** Comparisons *)

Lemma Qlt_bool_iff x y : Qlt_bool x y = true <-> x < y.
Proof.
  unfold Qlt_bool. rewrite negb_true_iff.
  split.
  - intros H. apply Qnot_le_lt. intros Hle.
    apply Qle_bool_iff in Hle. congruence.
  - intros H. destruct (Qle_bool y x) eqn:E; [|reflexivity].
    apply Qle_bool_iff in E. lra.
Qed.

Lemma Qlt_bool_false x y : Qlt_bool x y = false <-> y <= x.
Proof.
  unfold Qlt_bool. rewrite negb_false_iff. apply Qle_bool_iff.
Qed.

Lemma Qeq_bool_false x y : Qeq_bool x y = false <-> ~ x == y.
Proof.
  split.
  - apply Qeq_bool_neq.
  - intros H. destruct (Qeq_bool x y) eqn:E; [|reflexivity].
    apply Qeq_bool_iff in E. contradiction.
Qed.

(** The clamp of the SELL branch is the minimum. *)
Lemma clamp_is_Qmin amount held :
  (if Qlt_bool held amount then held else amount) = Qmin amount held.
Proof.
  unfold Qmin, GenericMinMax.gmin.
  destruct (Qlt_bool held amount) eqn:E.
  - apply Qlt_bool_iff in E. apply Qgt_alt in E. rewrite E. reflexivity.
  - apply Qlt_bool_false in E.
    destruct (amount ?= held)%Q eqn:C; try reflexivity.
    apply Qgt_alt in C. lra.
Qed.

(** *** Trade execution *)

(** C2.  A BUY whose value exceeds the cash, a SELL of a symbol that is not
    held, and any decision other than BUY and SELL return the error result
    and leave the whole ledger (cash, positions, trade history) as it was;
    nothing is raised. *)
Theorem rejected_trade_is_noop
    t_entry t_record self symbol decision price amount :
  (decision = "BUY" /\ cash self < amount * price) \/
  (decision = "SELL" /\ dict_lookup symbol (positions self) = None) \/
  (decision <> "BUY" /\ decision <> "SELL") ->
  execute_trade t_entry t_record self symbol decision price amount
  = (self, Ok (Failed "Trade execution failed")).
Proof.
  unfold execute_trade.
  intros [[-> Hcash] | [[-> Hnone] | [Hb Hs]]].
  - assert (E : Qle_bool (amount * price) (cash self) = false).
    { destruct (Qle_bool (amount * price) (cash self)) eqn:E; [|reflexivity].
      apply Qle_bool_iff in E. lra. }
    rewrite E. cbn. reflexivity.
  - cbn. rewrite Hnone. reflexivity.
  - apply String.eqb_neq in Hb, Hs. rewrite Hb, Hs. reflexivity.
Qed.

(** C4, amended.  A BUY whose value is at most the cash, of a symbol that
    is not held or whose shares do not cancel with the amount, succeeds:
    the cash decreases by amount * price, a held position gets the merged
    shares and the volume-weighted cost basis (and keeps its entry time), a
    new position has the amount as shares and the price as cost basis, the
    other positions are untouched, and the one record appended to the
    history is the one returned. *)
Theorem buy_succeeds t_entry t_record self symbol price amount :
  amount * price <= cash self ->
  (forall old, dict_lookup symbol (positions self) = Some old ->
               ~ shares old + amount == 0) ->
  let record :=
    {| tr_symbol := symbol; tr_action := "BUY"; tr_shares := amount;
       tr_price := price; tr_value := amount * price;
       tr_timestamp := t_record |} in
  exists self',
    execute_trade t_entry t_record self symbol "BUY" price amount
    = (self', Ok (Executed record)) /\
    cash self' = cash self - amount * price /\
    trade_history self' = (trade_history self ++ [record])%list /\
    match dict_lookup symbol (positions self) with
    | Some old =>
        exists new,
          dict_lookup symbol (positions self') = Some new /\
          shares new = shares old + amount /\
          cost_basis new
          == (cost_basis old * shares old + amount * price)
             / (shares old + amount) /\
          entry_time new = entry_time old
    | None =>
        dict_lookup symbol (positions self')
        = Some {| shares := amount; cost_basis := price;
                  entry_time := t_entry |}
    end /\
    (forall other, other <> symbol ->
       dict_lookup other (positions self')
       = dict_lookup other (positions self)).
Proof.
  intros Hcash Hsum record. unfold execute_trade.
  apply Qle_bool_iff in Hcash. rewrite Hcash.
  cbn [String.eqb Ascii.eqb Bool.eqb andb set_cash positions cash].
  destruct (dict_lookup symbol (positions self)) as [old|] eqn:Hold.
  - specialize (Hsum old eq_refl). unfold div.
    cbn [set_shares shares cost_basis entry_time set_positions positions].
    rewrite (proj2 (Qeq_bool_false _ _) Hsum).
    eexists. split; [reflexivity|].
    cbn [append_trade set_positions set_cost_basis cash positions
         trade_history shares cost_basis entry_time].
    repeat split.
    + eexists. split; [apply lookup_set_same|].
      cbn [shares cost_basis entry_time set_cost_basis set_shares].
      repeat split.
      field. exact Hsum.
    + intros other Hne. rewrite !lookup_set_other by assumption. reflexivity.
  - eexists. split; [reflexivity|].
    cbn [append_trade set_positions cash positions trade_history].
    repeat split.
    + apply lookup_set_same.
    + intros other Hne. rewrite lookup_set_other by assumption. reflexivity.
Qed.

(** C5.  A SELL of a held symbol succeeds for any amount: the amount sold
    is the minimum of the amount and the shares held, the cash increases by
    that amount times the price, the position is deleted when no share is
    left and otherwise keeps the remaining shares, the other positions are
    untouched, and the record appended and returned carries the clamped
    amount and its value. *)
Theorem sell_held_succeeds t_entry t_record self symbol price amount held :
  dict_lookup symbol (positions self) = Some held ->
  let sold := Qmin amount (shares held) in
  let record :=
    {| tr_symbol := symbol; tr_action := "SELL"; tr_shares := sold;
       tr_price := price; tr_value := sold * price;
       tr_timestamp := t_record |} in
  exists self',
    execute_trade t_entry t_record self symbol "SELL" price amount
    = (self', Ok (Executed record)) /\
    cash self' = cash self + sold * price /\
    trade_history self' = (trade_history self ++ [record])%list /\
    (shares held - sold == 0 ->
       dict_lookup symbol (positions self') = None) /\
    (~ shares held - sold == 0 ->
       dict_lookup symbol (positions self')
       = Some {| shares := shares held - sold;
                 cost_basis := cost_basis held;
                 entry_time := entry_time held |}) /\
    (forall other, other <> symbol ->
       dict_lookup other (positions self')
       = dict_lookup other (positions self)).
Proof.
  intros Hheld sold record. unfold execute_trade.
  cbn [String.eqb Ascii.eqb Bool.eqb andb].
  rewrite Hheld, clamp_is_Qmin. fold sold.
  eexists. split; [reflexivity|].
  cbn [set_shares shares cost_basis entry_time set_cash cash positions
       set_positions].
  destruct (Qeq_bool (shares held - sold) 0) eqn:E;
    cbn [append_trade set_positions cash positions trade_history];
    repeat split.
  - intros _. apply lookup_del_same.
  - intros Hne. apply Qeq_bool_iff in E. contradiction.
  - intros other Hne.
    rewrite lookup_del_other, lookup_set_other by assumption. reflexivity.
  - intros Heq. apply Qeq_bool_false in E. contradiction.
  - intros _. apply lookup_set_same.
  - intros other Hne. rewrite lookup_set_other by assumption. reflexivity.
Qed.

(** *** Reachable ledgers *)

Lemma all_positive_set symbol p d :
  all_positive d -> 0 < shares p -> all_positive (dict_set symbol p d).
Proof.
  intros Hd Hp k q Hk. destruct (string_dec k symbol) as [->|Hne].
  - rewrite lookup_set_same in Hk. injection Hk as <-. exact Hp.
  - rewrite lookup_set_other in Hk by assumption. eapply Hd; eassumption.
Qed.

(** Deleting a key leaves a dict positive when its other keys are. *)
Lemma all_positive_del symbol d :
  (forall k q, k <> symbol -> dict_lookup k d = Some q -> 0 < shares q) ->
  all_positive (dict_del symbol d).
Proof.
  intros Hd k q Hk. destruct (string_dec k symbol) as [->|Hne].
  - rewrite lookup_del_same in Hk. discriminate.
  - rewrite lookup_del_other in Hk by assumption. eapply Hd; eassumption.
Qed.

(** A trade of a positive amount keeps the shares positive, whatever it
    does. *)
Lemma trade_preserves_positive
    t_entry t_record self symbol decision price amount :
  0 < amount ->
  positions_positive self ->
  positions_positive
    (after_trade t_entry t_record self symbol decision price amount).
Proof.
  unfold positions_positive. intros Hpos Hsh.
  unfold after_trade, execute_trade.
  destruct (String.eqb decision "BUY"
            && Qle_bool (amount * price) (cash self)).
  - cbn [set_cash positions].
    destruct (dict_lookup symbol (positions self)) as [old|] eqn:Hold.
    + assert (Hold_pos : 0 < shares old) by (eapply Hsh; eassumption).
      assert (Hnew : 0 < shares old + amount) by lra.
      destruct (div _ _) as [cb|e];
        cbn [fst append_trade set_positions positions];
        repeat apply all_positive_set; assumption.
    + cbn [fst append_trade set_positions positions].
      apply all_positive_set; assumption.
  - destruct (if String.eqb decision "SELL"
              then dict_lookup symbol (positions self) else None)
      as [held|] eqn:Hheld; [|assumption].
    destruct (String.eqb decision "SELL"); [|discriminate].
    assert (Hheld_pos : 0 < shares held) by (eapply Hsh; eassumption).
    rewrite clamp_is_Qmin.
    set (sold := Qmin amount (shares held)).
    assert (Hsold : sold <= shares held) by apply Q.le_min_r.
    cbn [set_shares shares set_cash positions set_positions].
    destruct (Qeq_bool (shares held - sold) 0) eqn:E;
      cbn [fst append_trade set_positions positions].
    + apply all_positive_del. intros k q Hne Hk.
      rewrite lookup_set_other in Hk by assumption. eapply Hsh; eassumption.
    + apply Qeq_bool_false in E.
      apply all_positive_set; [assumption|]. cbn [shares].
      destruct (Qlt_le_dec 0 (shares held - sold)); [assumption|].
      exfalso. apply E. lra.
Qed.

(** The positions stay a dict: no call of [execute_trade] duplicates a
    key, whatever its arguments. *)
Lemma trade_preserves_wf
    t_entry t_record self symbol decision price amount :
  dict_wf (positions self) ->
  dict_wf (positions
             (after_trade t_entry t_record self symbol decision price amount)).
Proof.
  intros Hwf. unfold after_trade, execute_trade.
  destruct (String.eqb decision "BUY"
            && Qle_bool (amount * price) (cash self)).
  - cbn [set_cash positions].
    destruct (dict_lookup symbol (positions self)) as [old|].
    + destruct (div _ _) as [cb|e];
        cbn [fst append_trade set_positions positions];
        repeat apply dict_wf_set; assumption.
    + cbn [fst append_trade set_positions positions].
      apply dict_wf_set; assumption.
  - destruct (if String.eqb decision "SELL"
              then dict_lookup symbol (positions self) else None)
      as [held|]; [|assumption].
    cbn [set_shares shares set_cash positions set_positions].
    match goal with |- context [Qeq_bool ?x 0] =>
      destruct (Qeq_bool x 0) end;
      cbn [fst append_trade set_positions positions];
      try apply dict_wf_del; apply dict_wf_set; assumption.
Qed.

Lemma reachable_wf ok initial_capital self :
  reachable ok initial_capital self -> dict_wf (positions self).
Proof.
  induction 1 as [|self t_entry t_record symbol decision price amount _ IH _].
  - constructor.
  - apply trade_preserves_wf. assumption.
Qed.

(** C8, amended.  In every ledger reachable from a new bot by calls of
    [execute_trade] with positive amounts (any symbol, decision and price),
    every symbol that is a key of the positions has shares > 0. *)
Theorem positive_trades_keep_shares_positive initial_capital self :
  reachable positive_amount initial_capital self ->
  positions_positive self.
Proof.
  induction 1 as [|self t_entry t_record symbol decision price amount _ IH Hok].
  - intros symbol pos H. discriminate H.
  - apply trade_preserves_positive; assumption.
Qed.

(** *** Position sizing *)

Lemma calculate_position_size_degenerate self symbol price stop_loss :
  Qabs (price - stop_loss) == 0 ->
  calculate_position_size self symbol price stop_loss = Ok 0.
Proof.
  intros H. unfold calculate_position_size.
  apply Qeq_bool_iff in H. rewrite H. reflexivity.
Qed.

Lemma calculate_position_size_formula self symbol price stop_loss :
  ~ Qabs (price - stop_loss) == 0 ->
  ~ price == 0 ->
  calculate_position_size self symbol price stop_loss
  = Ok (min2 (cash self * risk_per_trade self / Qabs (price - stop_loss))
             (cash self * 0.1 / price)).
Proof.
  intros Hrisk Hprice. unfold calculate_position_size, div.
  apply Qeq_bool_false in Hrisk, Hprice. rewrite Hrisk.
  cbn [rbind]. rewrite Hprice. reflexivity.
Qed.

(** With a price of 0 and another stop loss the second division raises. *)
Lemma calculate_position_size_zero_price self symbol stop_loss :
  ~ stop_loss == 0 ->
  calculate_position_size self symbol 0 stop_loss
  = Raise (ZeroDivisionError "float division by zero").
Proof.
  intros Hsl. unfold calculate_position_size, div.
  assert (Hrisk : ~ Qabs (0 - stop_loss) == 0).
  { intros H. apply Hsl.
    assert (Hle : Qabs (0 - stop_loss) <= 0) by (rewrite H; apply Qle_refl).
    apply Qabs_Qle_condition in Hle. lra. }
  apply Qeq_bool_false in Hrisk. rewrite Hrisk. reflexivity.
Qed.

(** C3.  [calculate_position_size] with price 0 and stop loss 1 raises
    [ZeroDivisionError]: the call fails. *)
Theorem position_size_fails_at_zero_price :
  calculate_position_size (init 1000) "X" 0 1
  = Raise (ZeroDivisionError "float division by zero").
Proof. reflexivity. Qed.

(** *** Valuation *)

Lemma fold_value_sum d acc :
  fold_left (fun total kv => total + shares (snd kv) * cost_basis (snd kv))
            d acc
  == acc + sum_cost d.
Proof.
  revert acc. induction d as [|[k p] d IH]; intros acc; simpl.
  - ring.
  - rewrite IH. ring.
Qed.

(** C9.  [get_portfolio_value] is the cash plus the sum of
    shares * cost_basis over the open positions; it is a function of the
    ledger alone and returns a number, leaving the ledger as it is. *)
Theorem portfolio_value_is_cost_basis_sum self :
  get_portfolio_value self == cash self + sum_cost (positions self).
Proof.
  unfold get_portfolio_value. apply fold_value_sum.
Qed.

(** *** The scenarios of the specification *)

(** The ledger after the first BUY of 5 X at 10 out of 1000. *)
Example bot_holding_x_state :
  cash bot_holding_x == 950 /\
  positions bot_holding_x
  = [("X", {| shares := 5; cost_basis := 10; entry_time := 0 |})].
Proof. split; reflexivity. Qed.

(** A BUY of 1000 Y at 10 with a cash of 100 is rejected. *)
Lemma rejected_trade_is_noop_witness :
  (("BUY" = "BUY" /\ cash (init 100) < 1000 * 10) \/
   ("BUY" = "SELL" /\ dict_lookup "Y" (positions (init 100)) = None) \/
   ("BUY" <> "BUY" /\ "BUY" <> "SELL")) /\
  execute_trade 0 0 (init 100) "Y" "BUY" 10 1000
  = (init 100, Ok (Failed "Trade execution failed")).
Proof.
  assert (H : "BUY" = "BUY" /\ cash (init 100) < 1000 * 10)
    by (split; reflexivity).
  split.
  - left. exact H.
  - apply (@rejected_trade_is_noop 0 0 (init 100) "Y" "BUY" 10 1000).
    left. exact H.
Defined.

(** C4 as stated fails: a BUY of -5 X at 10 by the bot that holds 5 X has a
    value below the cash, and raises on the division by the merged shares
    (the cash and the shares are already updated). *)
Lemma buy_cancelling_shares_raises :
  -5 * 10 <= cash bot_holding_x /\
  snd (execute_trade 1 1 bot_holding_x "X" "BUY" 10 (-5))
  = Raise (ZeroDivisionError "float division by zero") /\
  cash (after_trade 1 1 bot_holding_x "X" "BUY" 10 (-5)) == 1000 /\
  trade_history (after_trade 1 1 bot_holding_x "X" "BUY" 10 (-5))
  = trade_history bot_holding_x.
Proof.
  split; [vm_compute; discriminate|].
  split; [reflexivity|].
  split; reflexivity.
Qed.

(** Two successive BUYs of 5 X at 10 from a cash of 1000 leave 10 shares at
    a cost basis of 10 and a cash of 900. *)
Lemma buy_succeeds_witness :
  5 * 10 <= cash bot_holding_x /\
  (forall old, dict_lookup "X" (positions bot_holding_x) = Some old ->
               ~ shares old + 5 == 0) /\
  exists self' record,
    execute_trade 1 1 bot_holding_x "X" "BUY" 10 5
    = (self', Ok (Executed record)) /\
    trade_history self'
    = (trade_history bot_holding_x ++ [record])%list /\
    tr_action record = "BUY" /\ tr_shares record = 5 /\
    tr_value record = 5 * 10 /\
    cash self' == 900 /\
    exists pos, dict_lookup "X" (positions self') = Some pos /\
                shares pos == 10 /\ cost_basis pos == 10.
Proof.
  assert (H1 : 5 * 10 <= cash bot_holding_x) by (vm_compute; discriminate).
  assert (H2 : forall old,
             dict_lookup "X" (positions bot_holding_x) = Some old ->
             ~ shares old + 5 == 0).
  { intros old Hold. injection Hold as <-. vm_compute. discriminate. }
  split; [exact H1|]. split; [exact H2|].
  destruct (@buy_succeeds 1 1 bot_holding_x "X" 10 5 H1 H2)
    as (self' & Hexec & Hcash & Hhist & Hpos & _).
  exists self'. eexists. split; [exact Hexec|].
  split; [exact Hhist|]. repeat (split; [reflexivity|]).
  split.
  - rewrite Hcash. reflexivity.
  - change (dict_lookup "X" (positions bot_holding_x))
      with (Some {| shares := 5; cost_basis := 10; entry_time := 0 |})
      in Hpos.
    destruct Hpos as (pos & Hlook & Hshares & Hcost & _).
    exists pos. split; [exact Hlook|]. split.
    + rewrite Hshares. reflexivity.
    + rewrite Hcost. reflexivity.
Defined.

(** Holding 5 X, a SELL of 100 X at 10 sells 5, adds 50 to the cash and
    removes the position. *)
Lemma sell_held_succeeds_witness :
  dict_lookup "X" (positions bot_holding_x)
  = Some {| shares := 5; cost_basis := 10; entry_time := 0 |} /\
  exists self',
    execute_trade 2 2 bot_holding_x "X" "SELL" 10 100
    = (self',
       Ok (Executed {| tr_symbol := "X"; tr_action := "SELL";
                       tr_shares := 5; tr_price := 10; tr_value := 5 * 10;
                       tr_timestamp := 2 |})) /\
    cash self' = cash bot_holding_x + 5 * 10 /\
    dict_lookup "X" (positions self') = None.
Proof.
  split; [reflexivity|].
  destruct (@sell_held_succeeds 2 2 bot_holding_x "X" 10 100
              {| shares := 5; cost_basis := 10; entry_time := 0 |}
              eq_refl)
    as (self' & Hexec & Hcash & _ & Hdel & _).
  exists self'. split; [exact Hexec|]. split; [exact Hcash|].
  apply Hdel. reflexivity.
Defined.

(** C8 as stated fails: a BUY of amount 0 by a new bot creates a position
    with 0 shares. *)
Lemma zero_buy_breaks_positive_shares :
  reachable any_amount 1000 bot_zero_x /\
  dict_lookup "X" (positions bot_zero_x)
  = Some {| shares := 0; cost_basis := 10; entry_time := 0 |} /\
  ~ positions_positive bot_zero_x.
Proof.
  split; [|split].
  - apply reach_trade; [apply reach_init | exact I].
  - reflexivity.
  - intros H. specialize (H "X" _ eq_refl). vm_compute in H. discriminate H.
Qed.

Lemma positive_trades_keep_shares_positive_witness :
  reachable positive_amount 1000 bot_holding_x /\
  positions_positive bot_holding_x.
Proof.
  assert (H : reachable positive_amount 1000 bot_holding_x).
  { apply reach_trade; [apply reach_init | reflexivity]. }
  split; [exact H|].
  apply (@positive_trades_keep_shares_positive 1000 bot_holding_x H).
Defined.

(** The sizing of the specification: no price risk gives 0. *)
Example position_size_degenerate_example :
  calculate_position_size (init 1000) "X" 10 10 = Ok 0.
Proof. reflexivity. Qed.

(** A ledger with 5 X at 10 and 40 Y at 2.5 and a cash of 850 is worth
    850 + 5 * 10 + 40 * 2.5. *)
Example two_positions_value :
  positions bot_two_positions
  = [("X", {| shares := 5; cost_basis := 10; entry_time := 0 |});
     ("Y", {| shares := 40; cost_basis := 2.5; entry_time := 1 |})] /\
  cash bot_two_positions == 850 /\
  get_portfolio_value bot_two_positions == 1000.
Proof. repeat split. Qed.

End LedgerFacts.

(* ------------------------------------------------------------------ *)
(** ** Further properties of the sub-scores and of the score *)

Module ScoringMore.
Import Py Scoring Reading.
Open Scope Q_scope.
Open Scope string_scope.

Lemma Qle_bool_false x y : Qle_bool x y = false <-> y < x.
Proof.
  split.
  - intros H. apply Qnot_le_lt. intros Hle.
    apply Qle_bool_iff in Hle. congruence.
  - intros H. destruct (Qle_bool x y) eqn:E; [|reflexivity].
    apply Qle_bool_iff in E. lra.
Qed.

(** Case analysis on every test of a goal, with the tests as
    inequalities. *)
Ltac split_tests :=
  repeat match goal with
  | |- context [Qle_bool ?a ?b] =>
      let E := fresh "E" in
      destruct (Qle_bool a b) eqn:E;
      [apply Qle_bool_iff in E | apply Qle_bool_false in E]
  | |- context [Qlt_bool ?a ?b] =>
      let E := fresh "E" in
      destruct (Qlt_bool a b) eqn:E;
      [apply LedgerFacts.Qlt_bool_iff in E
      | apply LedgerFacts.Qlt_bool_false in E]
  end.

(** X1.  A larger liquidity never has a smaller liquidity score. *)
Theorem liquidity_score_monotone l1 l2 :
  l1 <= l2 ->
  _calculate_liquidity_score l1 <= _calculate_liquidity_score l2.
Proof.
  intros H. unfold _calculate_liquidity_score. split_tests; lra.
Qed.

Lemma liquidity_score_monotone_witness :
  4999 <= 5000 /\
  _calculate_liquidity_score 4999 <= _calculate_liquidity_score 5000.
Proof.
  assert (H : 4999 <= 5000) by lra.
  split; [exact H|]. apply (liquidity_score_monotone H).
Defined.

Lemma liquidity_score_range l :
  0.2 <= _calculate_liquidity_score l <= 1.
Proof. unfold _calculate_liquidity_score. split_tests; lra. Qed.

(** *** Momentum *)

Lemma momentum_of_number pair_data x :
  nested_number pair_data "priceChange" "h24" = Some x ->
  _calculate_price_momentum pair_data = momentum_bucket x.
Proof.
  unfold nested_number, _calculate_price_momentum, price_momentum_body.
  destruct (get pair_data "priceChange" (PyDict [])) as [pc|e];
    [|discriminate].
  cbn [rbind].
  destruct (get pc "h24" (PyInt 0)) as [h|e]; [|discriminate].
  intros Hx. cbn [rbind]. unfold gt_lit. rewrite Hx. cbn [rbind].
  unfold momentum_bucket.
  repeat match goal with
  | |- context [Qlt_bool ?a x] => destruct (Qlt_bool a x); cbn [rbind]
  end; reflexivity.
Qed.

Lemma momentum_of_other pair_data :
  nested_number pair_data "priceChange" "h24" = None ->
  _calculate_price_momentum pair_data = 0.5.
Proof.
  unfold nested_number, _calculate_price_momentum, price_momentum_body.
  destruct (get pair_data "priceChange" (PyDict [])) as [pc|e];
    [|reflexivity].
  cbn [rbind].
  destruct (get pc "h24" (PyInt 0)) as [h|e]; [|reflexivity].
  intros Hx. cbn [rbind]. unfold gt_lit. rewrite Hx. reflexivity.
Qed.

Lemma momentum_bucket_monotone x1 x2 :
  x1 <= x2 -> momentum_bucket x1 <= momentum_bucket x2.
Proof. intros H. unfold momentum_bucket. split_tests; lra. Qed.

Lemma momentum_range pair_data :
  0.1 <= _calculate_price_momentum pair_data <= 0.9.
Proof.
  destruct (nested_number pair_data "priceChange" "h24") as [x|] eqn:E.
  - rewrite (momentum_of_number _ E). unfold momentum_bucket.
    split_tests; lra.
  - rewrite (momentum_of_other _ E). lra.
Qed.

(** X2.  Between two records whose 24h price change is a number, the one
    with the larger change never has the smaller momentum score. *)
Theorem price_momentum_monotone pair_data1 pair_data2 x1 x2 :
  nested_number pair_data1 "priceChange" "h24" = Some x1 ->
  nested_number pair_data2 "priceChange" "h24" = Some x2 ->
  x1 <= x2 ->
  _calculate_price_momentum pair_data1
  <= _calculate_price_momentum pair_data2.
Proof.
  intros H1 H2 Hle.
  rewrite (momentum_of_number _ H1), (momentum_of_number _ H2).
  apply momentum_bucket_monotone. exact Hle.
Qed.

Lemma price_momentum_monotone_witness :
  nested_number (PyDict [("priceChange", PyDict [("h24", PyFloat 0.2)])])
                "priceChange" "h24" = Some 0.2 /\
  nested_number pair_good "priceChange" "h24" = Some 0.6 /\
  0.2 <= 0.6 /\
  _calculate_price_momentum
    (PyDict [("priceChange", PyDict [("h24", PyFloat 0.2)])])
  <= _calculate_price_momentum pair_good.
Proof.
  assert (H : 0.2 <= 0.6) by lra.
  repeat (split; [reflexivity|]). split; [exact H|].
  apply (@price_momentum_monotone
           (PyDict [("priceChange", PyDict [("h24", PyFloat 0.2)])])
           pair_good 0.2 0.6 eq_refl eq_refl H).
Defined.

Lemma nested_number_absent d outer inner :
  dict_lookup outer d = None -> nested_number (PyDict d) outer inner = Some 0.
Proof.
  intros H. unfold nested_number, get. rewrite H. reflexivity.
Qed.

(** X3.  A record with no [priceChange] has the momentum score 0.3 of a
    change of 0, and a record whose price change cannot be read as a number
    has the score 0.5. *)
Theorem price_momentum_defaults :
  (forall d, dict_lookup "priceChange" d = None ->
             _calculate_price_momentum (PyDict d) = 0.3) /\
  (forall pair_data,
     nested_number pair_data "priceChange" "h24" = None ->
     _calculate_price_momentum pair_data = 0.5).
Proof.
  split.
  - intros d H.
    rewrite (momentum_of_number _
               (@nested_number_absent d "priceChange" "h24" H)).
    reflexivity.
  - apply momentum_of_other.
Qed.

Lemma price_momentum_defaults_witness :
  _calculate_price_momentum (PyDict []) = 0.3 /\
  _calculate_price_momentum (PyDict [("priceChange", PyStr "up")]) = 0.5 /\
  _calculate_price_momentum
    (PyDict [("priceChange", PyDict [("h24", PyNone)])]) = 0.5.
Proof.
  split; [|split].
  - apply (proj1 price_momentum_defaults []). reflexivity.
  - apply (proj2 price_momentum_defaults
             (PyDict [("priceChange", PyStr "up")])). reflexivity.
  - apply (proj2 price_momentum_defaults
             (PyDict [("priceChange", PyDict [("h24", PyNone)])])).
    reflexivity.
Defined.

(** *** Volume *)

Lemma volume_of_number pair_data x :
  nested_number pair_data "volume" "h24" = Some x ->
  _analyze_volume pair_data = volume_bucket x.
Proof.
  unfold nested_number, _analyze_volume, volume_body.
  destruct (get pair_data "volume" (PyDict [])) as [vo|e]; [|discriminate].
  cbn [rbind].
  destruct (get vo "h24" (PyInt 0)) as [h|e]; [|discriminate].
  intros Hx. cbn [rbind]. unfold gt_lit. rewrite Hx. cbn [rbind].
  unfold volume_bucket.
  repeat match goal with
  | |- context [Qlt_bool ?a x] => destruct (Qlt_bool a x); cbn [rbind]
  end; reflexivity.
Qed.

Lemma volume_of_other pair_data :
  nested_number pair_data "volume" "h24" = None ->
  _analyze_volume pair_data = 0.3.
Proof.
  unfold nested_number, _analyze_volume, volume_body.
  destruct (get pair_data "volume" (PyDict [])) as [vo|e]; [|reflexivity].
  cbn [rbind].
  destruct (get vo "h24" (PyInt 0)) as [h|e]; [|reflexivity].
  intros Hx. cbn [rbind]. unfold gt_lit. rewrite Hx. reflexivity.
Qed.

Lemma volume_range pair_data :
  0.2 <= _analyze_volume pair_data <= 1.
Proof.
  destruct (nested_number pair_data "volume" "h24") as [x|] eqn:E.
  - rewrite (volume_of_number _ E). unfold volume_bucket.
    split_tests; lra.
  - rewrite (volume_of_other _ E). lra.
Qed.

(** X4.  Between two records whose 24h volume is a number, the one with
    the larger volume never has the smaller volume score. *)
Theorem volume_monotone pair_data1 pair_data2 x1 x2 :
  nested_number pair_data1 "volume" "h24" = Some x1 ->
  nested_number pair_data2 "volume" "h24" = Some x2 ->
  x1 <= x2 ->
  _analyze_volume pair_data1 <= _analyze_volume pair_data2.
Proof.
  intros H1 H2 Hle.
  rewrite (volume_of_number _ H1), (volume_of_number _ H2).
  unfold volume_bucket. split_tests; lra.
Qed.

Lemma volume_monotone_witness :
  nested_number (PyDict [("volume", PyDict [("h24", PyInt 50000)])])
                "volume" "h24" = Some 50000 /\
  nested_number pair_good "volume" "h24" = Some 2000000 /\
  50000 <= 2000000 /\
  _analyze_volume (PyDict [("volume", PyDict [("h24", PyInt 50000)])])
  <= _analyze_volume pair_good.
Proof.
  assert (H : 50000 <= 2000000) by lra.
  repeat (split; [reflexivity|]). split; [exact H|].
  apply (@volume_monotone
           (PyDict [("volume", PyDict [("h24", PyInt 50000)])])
           pair_good 50000 2000000 eq_refl eq_refl H).
Defined.

(** X5.  A record with no [volume] has the lowest volume score, 0.2, and
    a record whose volume cannot be read as a number has the higher
    score 0.3. *)
Theorem volume_defaults :
  (forall d, dict_lookup "volume" d = None ->
             _analyze_volume (PyDict d) = 0.2) /\
  (forall pair_data,
     nested_number pair_data "volume" "h24" = None ->
     _analyze_volume pair_data = 0.3).
Proof.
  split.
  - intros d H.
    rewrite (volume_of_number _
               (@nested_number_absent d "volume" "h24" H)).
    reflexivity.
  - apply volume_of_other.
Qed.

Lemma volume_defaults_witness :
  _analyze_volume (PyDict []) = 0.2 /\
  _analyze_volume (PyDict [("volume", PyDict [("h24", PyStr "1e6")])]) = 0.3.
Proof.
  split.
  - apply (proj1 volume_defaults []). reflexivity.
  - apply (proj2 volume_defaults
             (PyDict [("volume", PyDict [("h24", PyStr "1e6")])])).
    reflexivity.
Defined.

(** *** Token age *)

Lemma age_range now pair_data :
  0.3 <= _analyze_token_age now pair_data <= 1.
Proof.
  unfold _analyze_token_age, token_age_body.
  destruct (get pair_data "pairCreatedAt" PyNone) as [v|e];
    cbn [rbind try_except]; [|lra].
  destruct (truthy v); cbn [try_except]; [|lra].
  destruct (div_lit v 1000) as [secs|e]; cbn [rbind try_except]; [|lra].
  destruct (fromtimestamp secs) as [created|e];
    cbn [rbind try_except]; [|lra].
  split_tests; lra.
Qed.

(** X7.  The age score is the neutral 0.5 when the record has no creation
    time, or one that is falsy (0, null, an empty string), or one that is
    not a number. *)
Theorem token_age_default now d :
  match dict_lookup "pairCreatedAt" d with
  | None => True
  | Some v => truthy v = false \/ num_value v = None
  end ->
  _analyze_token_age now (PyDict d) = 0.5.
Proof.
  unfold _analyze_token_age, token_age_body, get.
  destruct (dict_lookup "pairCreatedAt" d) as [v|]; cbn [rbind].
  - intros [Hf|Hn].
    + rewrite Hf. reflexivity.
    + destruct (truthy v); [|reflexivity].
      unfold div_lit. rewrite Hn. reflexivity.
  - reflexivity.
Qed.

Lemma token_age_default_witness :
  _analyze_token_age 1700000000000000 (PyDict []) = 0.5 /\
  _analyze_token_age 1700000000000000 (PyDict [("pairCreatedAt", PyInt 0)])
  = 0.5 /\
  _analyze_token_age 1700000000000000
    (PyDict [("pairCreatedAt", PyStr "yesterday")]) = 0.5.
Proof.
  split; [|split].
  - apply (@token_age_default 1700000000000000 []). exact I.
  - apply (@token_age_default 1700000000000000
             [("pairCreatedAt", PyInt 0)]).
    left. reflexivity.
  - apply (@token_age_default 1700000000000000
             [("pairCreatedAt", PyStr "yesterday")]).
    right. reflexivity.
Defined.

(** *** Social presence *)

(** The score of the step: a fifth per indicator found, of six at most,
    capped. *)
Lemma social_value pair_data soc :
  _estimate_social_presence pair_data = Ok soc ->
  exists n, (n <= 6)%nat /\ soc = min2 1.0 (inject_Z (Z.of_nat n) * 0.2).
Proof.
  unfold _estimate_social_presence.
  destruct (get pair_data "baseToken" (PyDict [])) as [b|e];
    cbn [rbind]; [|discriminate].
  destruct (get b "symbol" (PyStr "")) as [sv|e];
    cbn [rbind]; [|discriminate].
  destruct (lower_of sv) as [sy|e]; cbn [rbind]; [|discriminate].
  destruct (get b "name" (PyStr "")) as [nv|e];
    cbn [rbind]; [|discriminate].
  destruct (lower_of nv) as [na|e]; cbn [rbind]; [|discriminate].
  match goal with |- context [List.length (filter ?f ?l)] =>
    generalize (filter_length_le f l);
    generalize (List.length (filter f l))
  end.
  intros n Hn [= <-]. exists n. split; [exact Hn | reflexivity].
Qed.

Lemma social_range pair_data soc :
  _estimate_social_presence pair_data = Ok soc -> 0 <= soc <= 1.
Proof.
  intros H. destruct (social_value pair_data H) as (n & _ & ->).
  assert (H0 : inject_Z 0 <= inject_Z (Z.of_nat n))
    by (rewrite <- Zle_Qle; lia).
  change (inject_Z 0) with 0 in H0.
  unfold min2.
  destruct (Qlt_bool (inject_Z (Z.of_nat n) * 0.2) 1.0) eqn:E.
  - apply LedgerFacts.Qlt_bool_iff in E. lra.
  - lra.
Qed.



(** *** The whole analysis *)

Section Environment.

Variable parse_float : string -> option Q.
Variable now : Z.

Lemma liquidity_readable_iff pair_data :
  (exists l, liquidity_usd parse_float pair_data = Ok l) <->
  liquidity_readable parse_float pair_data = true.
Proof.
  unfold liquidity_usd, liquidity_readable, get, float_of, is_number.
  destruct pair_data as [| | | | | |d]; cbn [rbind];
    try (split; [intros [? H]; discriminate | discriminate]).
  destruct (dict_lookup "liquidity" d) as [[| | | | | |ld]|]; cbn [rbind];
    try (split; [intros [? H]; discriminate | discriminate]).
  - destruct (dict_lookup "usd" ld) as [[|b|z|q|us|l'|d']|];
      cbn [rbind float_operand option_map num_value];
      try (split; [intros [? H]; discriminate | discriminate]);
      try (split; [reflexivity | eexists; reflexivity]).
    + destruct (int_to_float z);
        [split; [reflexivity | eexists; reflexivity]
        |split; [intros [? H]; discriminate | discriminate]].
    + destruct (parse_float us);
        [split; [reflexivity | eexists; reflexivity]
        |split; [intros [? H]; discriminate | discriminate]].
  - unfold int_to_float. cbn. split; [reflexivity | eexists; reflexivity].
Qed.

Lemma social_readable_iff pair_data :
  (exists soc, _estimate_social_presence pair_data = Ok soc) <->
  social_readable pair_data = true.
Proof.
  unfold _estimate_social_presence, social_readable, field_ok, get, is_str.
  destruct pair_data as [| | | | | |d]; cbn [rbind];
    try (split; [intros [? H]; discriminate | discriminate]).
  destruct (dict_lookup "baseToken" d) as [[| | | | | |b]|];
    cbn [rbind dict_lookup];
    try (split; [intros [? H]; discriminate | discriminate]);
    try (split; [reflexivity | eexists; reflexivity]).
  destruct (dict_lookup "symbol" b) as [[| | | |sy| |]|];
    cbn [rbind lower_of andb];
    try (split; [intros [? H]; discriminate | discriminate]);
    (destruct (dict_lookup "name" b) as [[| | | |na| |]|];
     cbn [rbind lower_of andb];
     try (split; [intros [? H]; discriminate | discriminate]);
     try (split; [reflexivity | eexists; reflexivity])).
Qed.

(** X9.  A fault reaches the handler of [analyze_memecoin] exactly on the
    records that are not a dict, or whose [liquidity] is not a dict, or
    whose [usd] is neither a number that converts to a float (a bool, a
    float, an int within the range of a double: [float] raises
    [OverflowError] on an int beyond it) nor a string that [float] parses,
    or whose [baseToken] is not a dict, or whose [symbol] or [name] is not
    a string; absent fields never fault. *)
Theorem fault_iff_unreadable pair_data :
  fault parse_float now pair_data = None <->
  liquidity_readable parse_float pair_data && social_readable pair_data
  = true.
Proof.
  rewrite andb_true_iff.
  rewrite <- liquidity_readable_iff, <- social_readable_iff.
  destruct (ScoringFacts.fault_cases parse_float now pair_data)
    as [(e & Hl & Hf) | [(l & e & Hl & Hs & Hf) | (l & soc & Hl & Hs & Hf)]];
    rewrite Hf.
  - split; [discriminate|]. intros [[l Hl'] _]. congruence.
  - split; [discriminate|]. intros [_ [soc Hs']]. congruence.
  - split; [|reflexivity]. intros _. split; eexists; eassumption.
Qed.

(** X10.  In exact arithmetic, the weights and the sub-scores being the
    decimals of the source, the score of every analysis is between 0 and
    0.975: the momentum score is at most 0.9.  (The doubles of the code
    round each product and sum: their largest score is
    0.9750000000000001.) *)
Theorem score_bounds pair_data :
  0 <= score (analyze_memecoin parse_float now pair_data) <= 0.975.
Proof.
  unfold analyze_memecoin.
  pose proof (momentum_range pair_data) as Hm.
  pose proof (volume_range pair_data) as Hv.
  pose proof (age_range now pair_data) as Ha.
  destruct (ScoringFacts.fault_cases parse_float now pair_data)
    as [(e & Hl & _) | [(l & e & Hl & Hs & _) | (l & soc & Hl & Hs & _)]].
  - rewrite (ScoringFacts.analyze_body_liquidity_fault
               parse_float now pair_data analysis0 Hl).
    cbn. lra.
  - destruct (ScoringFacts.analyze_body_social_fault
                parse_float now pair_data analysis0 Hl Hs) as [rs ->].
    pose proof (liquidity_score_range l) as Hq.
    cbn [append_reason score analysis0]. unfold four_sub_scores. lra.
  - destruct (ScoringFacts.analyze_body_ok
                parse_float now pair_data analysis0 Hl Hs) as [rs ->].
    pose proof (liquidity_score_range l) as Hq.
    pose proof (social_range pair_data Hs) as Hsoc.
    cbn [score analysis0]. unfold four_sub_scores. lra.
Qed.

(** X11.  In exact arithmetic, the weights and the sub-scores being the
    decimals of the source, a record without a fault scores at least
    0.17.  (The doubles of the code round each product and sum: their
    smallest such score is 0.16999999999999998.) *)
Theorem score_lower_bound_without_fault pair_data :
  fault parse_float now pair_data = None ->
  0.17 <= score (analyze_memecoin parse_float now pair_data).
Proof.
  intros Hf. unfold analyze_memecoin.
  pose proof (momentum_range pair_data) as Hm.
  pose proof (volume_range pair_data) as Hv.
  pose proof (age_range now pair_data) as Ha.
  destruct (ScoringFacts.fault_cases parse_float now pair_data)
    as [(e & _ & Hf') | [(l & e & _ & _ & Hf') | (l & soc & Hl & Hs & _)]];
    try congruence.
  destruct (ScoringFacts.analyze_body_ok
              parse_float now pair_data analysis0 Hl Hs) as [rs ->].
  pose proof (liquidity_score_range l) as Hq.
  pose proof (social_range pair_data Hs) as Hsoc.
  cbn [score analysis0]. unfold four_sub_scores. lra.
Qed.

(** X12.  A record with none of the five fields is a SELL: its score and
    confidence are 0.25 and it has no reason. *)
Theorem no_fields_is_sell d :
  no_fields d ->
  let a := analyze_memecoin parse_float now (PyDict d) in
  score a == 0.25 /\ decision a = "SELL" /\ confidence a == 0.25 /\
  reasons a = [].
Proof.
  intros (Hl & Hp & Hv & Hc & Hb).
  unfold analyze_memecoin, analyze_body, liquidity_usd,
    _calculate_price_momentum, price_momentum_body, _analyze_volume,
    volume_body, _analyze_token_age, token_age_body,
    _estimate_social_presence, get.
  rewrite Hl, Hp, Hv, Hc, Hb.
  repeat split.
Qed.

End Environment.

Lemma score_lower_bound_without_fault_witness :
  fault no_float_strings 1700000000000000 pair_good = None /\
  0.17 <= score (analyze_memecoin no_float_strings 1700000000000000
                   pair_good).
Proof.
  split; [reflexivity|].
  apply (@score_lower_bound_without_fault
           no_float_strings 1700000000000000 pair_good).
  reflexivity.
Defined.

Lemma no_fields_is_sell_witness :
  no_fields [("chainId", PyStr "solana")] /\
  decision (analyze_memecoin no_float_strings 0
              (PyDict [("chainId", PyStr "solana")])) = "SELL".
Proof.
  assert (H : no_fields [("chainId", PyStr "solana")])
    by (repeat split).
  split; [exact H|].
  apply (@no_fields_is_sell no_float_strings 0
           [("chainId", PyStr "solana")] H).
Defined.

End ScoringMore.

(* ------------------------------------------------------------------ *)
(** ** Further properties of the ledger *)

Module LedgerMore.
Import Py Ledger Accounting LedgerFacts.
Open Scope Q_scope.
Open Scope string_scope.

(** *** What a trade never touches, and what it appends *)

Lemma trade_keeps_constants
    t_entry t_record self symbol decision price amount :
  let self' :=
    after_trade t_entry t_record self symbol decision price amount in
  total_value self' = total_value self /\
  risk_per_trade self' = risk_per_trade self.
Proof.
  unfold after_trade, execute_trade.
  destruct (String.eqb decision "BUY"
            && Qle_bool (amount * price) (cash self)).
  - cbn [set_cash positions].
    destruct (dict_lookup symbol (positions self)) as [old|].
    + destruct (div _ _); split; reflexivity.
    + split; reflexivity.
  - destruct (if String.eqb decision "SELL"
              then dict_lookup symbol (positions self) else None)
      as [held|]; [|split; reflexivity].
    cbn [set_shares shares].
    match goal with |- context [Qeq_bool ?x 0] =>
      destruct (Qeq_bool x 0) end; split; reflexivity.
Qed.

(** X13.  No sequence of trades changes [total_value] or the risk
    fraction: in every reachable ledger the total value is still the
    initial capital, whatever the cash and the positions are, and the risk
    per trade is 0.02. *)
Theorem total_value_is_never_updated ok initial_capital self :
  reachable ok initial_capital self ->
  total_value self = initial_capital /\ risk_per_trade self = 0.02.
Proof.
  induction 1 as [|self t_entry t_record symbol decision price amount
                   _ [IHt IHr] _].
  - split; reflexivity.
  - destruct (trade_keeps_constants
                t_entry t_record self symbol decision price amount)
      as [Ht Hr].
    split; congruence.
Qed.

Lemma total_value_is_never_updated_witness :
  reachable any_amount 1000 bot_two_positions /\
  total_value bot_two_positions = 1000 /\
  risk_per_trade bot_two_positions = 0.02.
Proof.
  assert (H : reachable any_amount 1000 bot_two_positions).
  { apply reach_trade; [|exact I].
    apply reach_trade; [apply reach_init | exact I]. }
  split; [exact H|].
  apply (@total_value_is_never_updated any_amount 1000 bot_two_positions H).
Defined.

(** X14.  The trade history is append-only: a call of [execute_trade]
    leaves the earlier records in place and appends the record it returns,
    and nothing when it returns the error result or raises. *)
Theorem trade_history_append_only
    t_entry t_record self symbol decision price amount :
  trade_history
    (after_trade t_entry t_record self symbol decision price amount)
  = (trade_history self
     ++ appended (snd (execute_trade t_entry t_record self symbol decision
                                     price amount)))%list.
Proof.
  unfold after_trade, execute_trade.
  destruct (String.eqb decision "BUY"
            && Qle_bool (amount * price) (cash self)).
  - cbn [set_cash positions].
    destruct (dict_lookup symbol (positions self)) as [old|].
    + destruct (div _ _); cbn; [reflexivity | symmetry; apply app_nil_r].
    + reflexivity.
  - destruct (if String.eqb decision "SELL"
              then dict_lookup symbol (positions self) else None)
      as [held|]; [|cbn; symmetry; apply app_nil_r].
    cbn [set_shares shares].
    match goal with |- context [Qeq_bool ?x 0] =>
      destruct (Qeq_bool x 0) end; reflexivity.
Qed.

(** A trade keeps the records of the history consistent. *)
Lemma trade_keeps_records_ok
    t_entry t_record self symbol decision price amount :
  Forall record_ok (trade_history self) ->
  Forall record_ok
    (trade_history
       (after_trade t_entry t_record self symbol decision price amount)).
Proof.
  intros Hok. unfold after_trade, execute_trade.
  destruct (String.eqb decision "BUY"
            && Qle_bool (amount * price) (cash self)).
  - cbn [set_cash positions].
    destruct (dict_lookup symbol (positions self)) as [old|].
    + destruct (div _ _); cbn; [|exact Hok].
      apply Forall_app. split; [exact Hok|].
      constructor; [|constructor].
      split; [reflexivity | left; reflexivity].
    + cbn. apply Forall_app. split; [exact Hok|].
      constructor; [|constructor].
      split; [reflexivity | left; reflexivity].
  - destruct (if String.eqb decision "SELL"
              then dict_lookup symbol (positions self) else None)
      as [held|]; [|exact Hok].
    cbn [set_shares shares].
    match goal with |- context [Qeq_bool ?x 0] =>
      destruct (Qeq_bool x 0) end;
      cbn; (apply Forall_app; split; [exact Hok|]);
      (constructor; [|constructor]);
      (split; [reflexivity | right; reflexivity]).
Qed.

(** X15.  In every reachable ledger, each record of the trade history has
    a value equal to its shares times its price and the action BUY or
    SELL. *)
Theorem history_records_consistent ok initial_capital self :
  reachable ok initial_capital self ->
  Forall record_ok (trade_history self).
Proof.
  induction 1 as [|self t_entry t_record symbol decision price amount
                   _ IH _].
  - constructor.
  - apply trade_keeps_records_ok. exact IH.
Qed.

Lemma history_records_consistent_witness :
  reachable any_amount 1000 bot_two_positions /\
  Forall record_ok (trade_history bot_two_positions).
Proof.
  assert (H : reachable any_amount 1000 bot_two_positions).
  { apply reach_trade; [|exact I].
    apply reach_trade; [apply reach_init | exact I]. }
  split; [exact H|].
  apply (@history_records_consistent any_amount 1000 bot_two_positions H).
Defined.

(** *** The cost-basis value across trades *)

Lemma value_is_cash_plus_cost self :
  get_portfolio_value self == cash self + sum_cost (positions self).
Proof. unfold get_portfolio_value. apply fold_value_sum. Qed.

Lemma sum_cost_set_present k v old (d : list (string * position)) :
  dict_lookup k d = Some old ->
  sum_cost (dict_set k v d)
  == sum_cost d - position_value old + position_value v.
Proof.
  unfold position_value.
  induction d as [|[k0 v0] d IH]; simpl; [discriminate|].
  destruct (String.eqb k k0); simpl.
  - intros [= ->]. ring.
  - intros H. rewrite (IH H). ring.
Qed.

Lemma sum_cost_set_absent k v (d : list (string * position)) :
  dict_lookup k d = None ->
  sum_cost (dict_set k v d) == sum_cost d + position_value v.
Proof.
  unfold position_value.
  induction d as [|[k0 v0] d IH]; simpl.
  - intros _. ring.
  - destruct (String.eqb k k0); simpl; [discriminate|].
    intros H. rewrite (IH H). ring.
Qed.

Lemma dict_del_absent {V} k (d : list (string * V)) :
  dict_lookup k d = None -> dict_del k d = d.
Proof.
  induction d as [|[k0 v0] d IH]; simpl; [reflexivity|].
  destruct (String.eqb k k0); [discriminate|].
  intros H. rewrite (IH H). reflexivity.
Qed.

Lemma sum_cost_del k old (d : list (string * position)) :
  dict_wf d ->
  dict_lookup k d = Some old ->
  sum_cost (dict_del k d) == sum_cost d - position_value old.
Proof.
  unfold position_value, dict_wf.
  induction d as [|[k0 v0] d IH]; simpl; [discriminate|].
  intros Hwf. inversion Hwf as [|? ? Hnin Hd]; subst.
  destruct (String.eqb_spec k k0) as [->|Hne]; simpl.
  - intros [= ->]. rewrite dict_del_absent by (apply lookup_keys; assumption).
    ring.
  - intros H. rewrite (IH Hd H). ring.
Qed.

(** X16.  A BUY that executes leaves the portfolio value as it was: at
    cost basis, the cash paid is worth the shares bought, for a new
    position and for a merged one. *)
Theorem buy_keeps_portfolio_value
    t_entry t_record self symbol price amount record :
  snd (execute_trade t_entry t_record self symbol "BUY" price amount)
  = Ok (Executed record) ->
  get_portfolio_value
    (after_trade t_entry t_record self symbol "BUY" price amount)
  == get_portfolio_value self.
Proof.
  unfold after_trade, execute_trade.
  cbn [String.eqb Ascii.eqb Bool.eqb andb].
  destruct (Qle_bool (amount * price) (cash self)); [|discriminate].
  cbn [set_cash positions cash].
  destruct (dict_lookup symbol (positions self)) as [old|] eqn:Hold.
  - unfold div.
    cbn [set_shares shares cost_basis entry_time set_positions positions].
    destruct (Qeq_bool (shares old + amount) 0) eqn:E; [discriminate|].
    apply Qeq_bool_false in E. intros _.
    rewrite !value_is_cash_plus_cost.
    cbn [fst append_trade set_positions set_cost_basis cash positions].
    rewrite (@sum_cost_set_present symbol _
               (set_shares (shares old + amount) old))
      by apply lookup_set_same.
    rewrite (@sum_cost_set_present symbol _ old) by assumption.
    unfold position_value.
    cbn [shares cost_basis set_shares set_cost_basis set_cash cash].
    field. exact E.
  - intros _. rewrite !value_is_cash_plus_cost.
    cbn [fst append_trade set_positions cash positions].
    rewrite sum_cost_set_absent by assumption.
    unfold position_value. cbn [shares cost_basis set_cash cash]. ring.
Qed.

Lemma buy_keeps_portfolio_value_witness :
  snd (execute_trade 1 1 bot_holding_x "X" "BUY" 20 5)
  = Ok (Executed {| tr_symbol := "X"; tr_action := "BUY"; tr_shares := 5;
                    tr_price := 20; tr_value := 5 * 20;
                    tr_timestamp := 1 |}) /\
  get_portfolio_value (after_trade 1 1 bot_holding_x "X" "BUY" 20 5)
  == get_portfolio_value bot_holding_x.
Proof.
  split; [reflexivity|].
  apply (@buy_keeps_portfolio_value 1 1 bot_holding_x "X" 20 5 _ eq_refl).
Defined.

(** X17.  In exact arithmetic, a SELL of a held symbol changes the
    portfolio value by the amount sold times the difference between the
    price and the cost basis: the gain or loss it realises.  (In the
    doubles of the code the two sides can differ by a rounding.) *)
Theorem sell_realises_gain
    t_entry t_record self symbol price amount held :
  dict_wf (positions self) ->
  dict_lookup symbol (positions self) = Some held ->
  get_portfolio_value
    (after_trade t_entry t_record self symbol "SELL" price amount)
  == get_portfolio_value self
     + Qmin amount (shares held) * (price - cost_basis held).
Proof.
  intros Hwf Hheld. unfold after_trade, execute_trade.
  cbn [String.eqb Ascii.eqb Bool.eqb andb].
  rewrite Hheld, clamp_is_Qmin.
  set (sold := Qmin amount (shares held)).
  cbn [set_shares shares cost_basis entry_time set_cash cash positions
       set_positions].
  rewrite !value_is_cash_plus_cost.
  destruct (Qeq_bool (shares held - sold) 0) eqn:E;
    cbn [fst append_trade set_positions cash positions].
  - apply Qeq_bool_iff in E.
    rewrite (@sum_cost_del symbol
               {| shares := shares held - sold;
                  cost_basis := cost_basis held;
                  entry_time := entry_time held |})
      by (try apply dict_wf_set; try apply lookup_set_same; assumption).
    rewrite (@sum_cost_set_present symbol _ held) by assumption.
    unfold position_value. cbn [shares cost_basis set_shares set_cash cash].
    assert (Hz : (shares held - sold) * cost_basis held == 0)
      by (rewrite E; ring).
    nra.
  - rewrite (@sum_cost_set_present symbol _ held) by assumption.
    unfold position_value. cbn [shares cost_basis set_shares set_cash cash].
    ring.
Qed.

Lemma sell_realises_gain_witness :
  dict_wf (positions bot_holding_x) /\
  dict_lookup "X" (positions bot_holding_x)
  = Some {| shares := 5; cost_basis := 10; entry_time := 0 |} /\
  get_portfolio_value (after_trade 2 2 bot_holding_x "X" "SELL" 12 2)
  == get_portfolio_value bot_holding_x + 2 * (12 - 10).
Proof.
  assert (Hwf : dict_wf (positions bot_holding_x)).
  { repeat constructor. intros []. }
  split; [exact Hwf|]. split; [reflexivity|].
  apply (@sell_realises_gain 2 2 bot_holding_x "X" 12 2
           {| shares := 5; cost_basis := 10; entry_time := 0 |}
           Hwf eq_refl).
Defined.

(** X26.  In exact arithmetic, when a held symbol is bought again, with
    positive shares held and a positive amount, the new cost basis lies
    between the old cost basis and the price paid.  (In the doubles of the
    code it can leave that interval by a rounding.) *)
Theorem merged_cost_basis_between
    t_entry t_record self symbol price amount old :
  dict_lookup symbol (positions self) = Some old ->
  0 < shares old -> 0 < amount ->
  amount * price <= cash self ->
  exists new,
    dict_lookup symbol
      (positions (after_trade t_entry t_record self symbol "BUY" price amount))
    = Some new /\
    Qmin (cost_basis old) price <= cost_basis new
    /\ cost_basis new <= Qmax (cost_basis old) price.
Proof.
  intros Hold Hs Ha Hcash. unfold after_trade, execute_trade.
  apply Qle_bool_iff in Hcash. rewrite Hcash.
  cbn [String.eqb Ascii.eqb Bool.eqb andb set_cash positions cash].
  rewrite Hold. unfold div.
  cbn [set_shares shares cost_basis entry_time set_positions positions].
  assert (Hsum : ~ shares old + amount == 0) by lra.
  rewrite (proj2 (Qeq_bool_false _ _) Hsum).
  cbn [fst append_trade set_positions positions].
  eexists. split; [apply lookup_set_same|].
  cbn [cost_basis set_cost_basis].
  pose proof (Q.le_min_l (cost_basis old) price) as Hm1.
  pose proof (Q.le_min_r (cost_basis old) price) as Hm2.
  pose proof (Q.le_max_l (cost_basis old) price) as HM1.
  pose proof (Q.le_max_r (cost_basis old) price) as HM2.
  set (m := Qmin (cost_basis old) price) in *.
  set (M := Qmax (cost_basis old) price) in *.
  clearbody m M.
  assert (Hpos : 0 < shares old + amount) by lra.
  split.
  - apply Qle_shift_div_l; [exact Hpos|]. nra.
  - apply Qle_shift_div_r; [exact Hpos|]. nra.
Qed.

Lemma merged_cost_basis_between_witness :
  dict_lookup "X" (positions bot_holding_x)
  = Some {| shares := 5; cost_basis := 10; entry_time := 0 |} /\
  0 < 5 /\ 0 < 5 /\ 5 * 20 <= cash bot_holding_x /\
  exists new,
    dict_lookup "X"
      (positions (after_trade 1 1 bot_holding_x "X" "BUY" 20 5))
    = Some new /\
    Qmin 10 20 <= cost_basis new /\ cost_basis new <= Qmax 10 20.
Proof.
  assert (H1 : 0 < 5) by lra.
  assert (H2 : 5 * 20 <= cash bot_holding_x) by (vm_compute; discriminate).
  split; [reflexivity|]. split; [exact H1|]. split; [exact H1|].
  split; [exact H2|].
  apply (@merged_cost_basis_between 1 1 bot_holding_x "X" 20 5
           {| shares := 5; cost_basis := 10; entry_time := 0 |}
           eq_refl H1 H1 H2).
Defined.

(** *** Cash *)

(** X18.  With a non-negative cash, price and amount, and positive shares
    in every position, no call of [execute_trade] makes the cash
    negative: a BUY is refused beyond the cash and a SELL adds to it. *)
Theorem cash_stays_non_negative
    t_entry t_record self symbol decision price amount :
  0 <= cash self -> 0 <= price -> 0 <= amount ->
  positions_positive self ->
  0 <= cash (after_trade t_entry t_record self symbol decision price amount).
Proof.
  intros Hcash Hprice Hamount Hsh. unfold after_trade, execute_trade.
  destruct (String.eqb decision "BUY"
            && Qle_bool (amount * price) (cash self)) eqn:Hbuy.
  - apply andb_prop in Hbuy as [_ E]. apply Qle_bool_iff in E.
    cbn [set_cash positions].
    destruct (dict_lookup symbol (positions self)) as [old|].
    + destruct (div _ _); cbn; lra.
    + cbn. lra.
  - destruct (if String.eqb decision "SELL"
              then dict_lookup symbol (positions self) else None)
      as [held|] eqn:Hheld; [|assumption].
    destruct (String.eqb decision "SELL"); [|discriminate].
    assert (Hpos : 0 < shares held) by (eapply Hsh; eassumption).
    rewrite clamp_is_Qmin.
    set (sold := Qmin amount (shares held)).
    assert (Hsold : 0 <= sold)
      by (apply Q.min_glb; [assumption | apply Qlt_le_weak; assumption]).
    assert (Hgain : 0 <= sold * price)
      by (apply Qmult_le_0_compat; assumption).
    cbn [set_shares shares set_cash cash positions set_positions].
    match goal with |- context [Qeq_bool ?x 0] =>
      destruct (Qeq_bool x 0) end; cbn; lra.
Qed.

Lemma cash_stays_non_negative_witness :
  0 <= cash bot_holding_x /\ 0 <= 12 /\ 0 <= 2 /\
  positions_positive bot_holding_x /\
  0 <= cash (after_trade 2 2 bot_holding_x "X" "SELL" 12 2).
Proof.
  assert (Hc : 0 <= cash bot_holding_x) by (vm_compute; discriminate).
  assert (Hp : 0 <= 12) by lra.
  assert (Ha : 0 <= 2) by lra.
  assert (Hs : positions_positive bot_holding_x).
  { intros k p. change (positions bot_holding_x)
      with [("X", {| shares := 5; cost_basis := 10; entry_time := 0 |})].
    simpl. destruct (String.eqb k "X"); [|discriminate].
    intros [= <-]. reflexivity. }
  repeat (split; [assumption|]).
  apply (@cash_stays_non_negative 2 2 bot_holding_x "X" "SELL" 12 2
           Hc Hp Ha Hs).
Defined.

(** *** Position sizing *)

(** What [calculate_position_size] returns at a positive price: 0 without
    price risk, the smaller of the two quotients otherwise. *)
Lemma position_size_cases self symbol price stop_loss n :
  calculate_position_size self symbol price stop_loss = Ok n ->
  0 < price ->
  (Qabs (price - stop_loss) == 0 /\ n = 0) \/
  (0 < Qabs (price - stop_loss) /\
   n = min2 (cash self * risk_per_trade self / Qabs (price - stop_loss))
            (cash self * 0.1 / price)).
Proof.
  intros Hsize Hprice.
  destruct (Qeq_bool (Qabs (price - stop_loss)) 0) eqn:E.
  - apply Qeq_bool_iff in E. left. split; [exact E|].
    rewrite (@calculate_position_size_degenerate
               self symbol price stop_loss E) in Hsize.
    congruence.
  - apply Qeq_bool_false in E. right.
    assert (Hp0 : ~ price == 0) by lra.
    rewrite (@calculate_position_size_formula
               self symbol price stop_loss E Hp0) in Hsize.
    split; [|congruence].
    pose proof (Qabs_nonneg (price - stop_loss)) as H0.
    destruct (Qlt_le_dec 0 (Qabs (price - stop_loss))); [assumption|].
    exfalso. apply E. lra.
Qed.

Lemma min2_le_first a b : min2 a b <= a.
Proof.
  unfold min2. destruct (Qlt_bool b a) eqn:E.
  - apply Qlt_bool_iff in E. lra.
  - lra.
Qed.

Lemma min2_le_second a b : min2 a b <= b.
Proof.
  unfold min2. destruct (Qlt_bool b a) eqn:E.
  - lra.
  - apply Qlt_bool_false in E. exact E.
Qed.

Lemma min2_lower c a b : c <= a -> c <= b -> c <= min2 a b.
Proof. intros Ha Hb. unfold min2. destruct (Qlt_bool b a); assumption. Qed.

(** X19.  In exact arithmetic, with a positive price and a non-negative
    cash and risk fraction, the size that [calculate_position_size]
    returns is not negative, costs at most a tenth of the cash at the
    price, and loses at most the risk fraction of the cash at the stop
    loss.  (In the doubles of the code the two limits can be exceeded by a
    rounding.) *)
Theorem position_size_respects_limits self symbol price stop_loss n :
  calculate_position_size self symbol price stop_loss = Ok n ->
  0 < price -> 0 <= cash self -> 0 <= risk_per_trade self ->
  0 <= n /\
  n * price <= cash self * 0.1 /\
  n * Qabs (price - stop_loss) <= cash self * risk_per_trade self.
Proof.
  intros Hsize Hprice Hcash Hrisk.
  assert (Hra : 0 <= cash self * risk_per_trade self)
    by (apply Qmult_le_0_compat; assumption).
  destruct (@position_size_cases self symbol price stop_loss n
              Hsize Hprice) as [[Hzero ->] | [Hpr ->]].
  - rewrite Hzero. repeat split; nra.
  - set (pr := Qabs (price - stop_loss)) in *.
    set (a := cash self * risk_per_trade self / pr).
    set (b := cash self * 0.1 / price).
    assert (Ha : a * pr == cash self * risk_per_trade self)
      by (unfold a; field; lra).
    assert (Hb : b * price == cash self * 0.1)
      by (unfold b; field; lra).
    assert (Ha0 : 0 <= a)
      by (unfold a; apply Qle_shift_div_l; [assumption | lra]).
    assert (Hb0 : 0 <= b)
      by (unfold b; apply Qle_shift_div_l; [assumption | lra]).
    pose proof (min2_le_first a b) as H1.
    pose proof (min2_le_second a b) as H2.
    pose proof (min2_lower Ha0 Hb0) as H3.
    set (m := min2 a b) in *. clearbody m a b pr.
    assert (Hm1 : m * pr <= a * pr)
      by (apply Qmult_le_compat_r; lra).
    assert (Hm2 : m * price <= b * price)
      by (apply Qmult_le_compat_r; lra).
    repeat split; lra.
Qed.

Lemma position_size_respects_limits_witness :
  calculate_position_size (init 1000) "X" 10 9 = Ok 10.00 /\
  0 < 10 /\ 0 <= cash (init 1000) /\ 0 <= risk_per_trade (init 1000) /\
  0 <= 10.00 /\
  10.00 * 10 <= cash (init 1000) * 0.1 /\
  10.00 * Qabs (10 - 9) <= cash (init 1000) * risk_per_trade (init 1000).
Proof.
  assert (H1 : calculate_position_size (init 1000) "X" 10 9 = Ok 10.00)
    by reflexivity.
  assert (H2 : 0 < 10) by lra.
  assert (H3 : 0 <= cash (init 1000)) by (cbn; lra).
  assert (H4 : 0 <= risk_per_trade (init 1000)) by (cbn; lra).
  repeat (split; [assumption|]).
  apply (@position_size_respects_limits
           (init 1000) "X" 10 9 10.00 H1 H2 H3 H4).
Defined.

(** A BUY within the cash whose merged shares are not 0 executes and
    pays its value. *)
Lemma buy_executes t_entry t_record self symbol price amount :
  amount * price <= cash self ->
  (forall old, dict_lookup symbol (positions self) = Some old ->
               ~ shares old + amount == 0) ->
  exists self' record,
    execute_trade t_entry t_record self symbol "BUY" price amount
    = (self', Ok (Executed record)) /\
    cash self' = cash self - amount * price.
Proof.
  intros Hcash Hsum. unfold execute_trade.
  apply Qle_bool_iff in Hcash. rewrite Hcash.
  cbn [String.eqb Ascii.eqb Bool.eqb andb set_cash positions cash].
  destruct (dict_lookup symbol (positions self)) as [old|].
  - specialize (Hsum old eq_refl). unfold div.
    cbn [set_shares shares cost_basis entry_time set_positions positions].
    rewrite (proj2 (Qeq_bool_false _ _) Hsum).
    eexists. eexists. split; reflexivity.
  - eexists. eexists. split; reflexivity.
Qed.

(** X20.  In exact arithmetic, a BUY of the size that
    [calculate_position_size] returns, at the price it was sized for, is
    never refused and never raises when the price is positive and the
    positions have positive shares, and it leaves at least nine tenths of
    the cash.  (In the doubles of the code the cash left can miss nine
    tenths by a rounding.) *)
Theorem sized_buy_executes
    t_entry t_record self symbol price stop_loss n :
  calculate_position_size self symbol price stop_loss = Ok n ->
  0 < price -> 0 <= cash self -> 0 <= risk_per_trade self ->
  positions_positive self ->
  exists self' record,
    execute_trade t_entry t_record self symbol "BUY" price n
    = (self', Ok (Executed record)) /\
    cash self * 0.9 <= cash self'.
Proof.
  intros Hsize Hprice Hcash Hrisk Hsh.
  assert (Hn : 0 <= n /\ n * price <= cash self * 0.1).
  { destruct (@position_size_cases self symbol price stop_loss n
                Hsize Hprice) as [[_ ->] | [Hpr ->]].
    - split; lra.
    - set (a := cash self * risk_per_trade self
                / Qabs (price - stop_loss)).
      set (b := cash self * 0.1 / price).
      assert (Hb : b * price == cash self * 0.1)
        by (unfold b; field; lra).
      assert (Ha0 : 0 <= a).
      { unfold a. apply Qle_shift_div_l; [assumption|].
        rewrite Qmult_0_l. apply Qmult_le_0_compat; assumption. }
      assert (Hb0 : 0 <= b)
        by (unfold b; apply Qle_shift_div_l; [assumption | lra]).
      split; [apply min2_lower; assumption|].
      rewrite <- Hb. apply Qmult_le_compat_r; [apply min2_le_second | lra]. }
  destruct Hn as [Hn0 Hcost].
  destruct (@buy_executes t_entry t_record self symbol price n)
    as (self' & record & Hexec & Hpaid).
  - lra.
  - intros old Hold Hzero.
    assert (Hpos : 0 < shares old) by (eapply Hsh; eassumption).
    lra.
  - exists self', record. split; [exact Hexec|]. rewrite Hpaid. lra.
Qed.

Lemma sized_buy_executes_witness :
  calculate_position_size bot_holding_x "X" 10 9 = Ok 9.50 /\
  0 < 10 /\ 0 <= cash bot_holding_x /\
  0 <= risk_per_trade bot_holding_x /\
  positions_positive bot_holding_x /\
  exists self' record,
    execute_trade 3 3 bot_holding_x "X" "BUY" 10 9.50
    = (self', Ok (Executed record)) /\
    cash bot_holding_x * 0.9 <= cash self'.
Proof.
  assert (H1 : calculate_position_size bot_holding_x "X" 10 9 = Ok 9.50)
    by reflexivity.
  assert (H2 : 0 < 10) by lra.
  assert (H3 : 0 <= cash bot_holding_x) by (vm_compute; discriminate).
  assert (H4 : 0 <= risk_per_trade bot_holding_x)
    by (vm_compute; discriminate).
  assert (H5 : positions_positive bot_holding_x).
  { intros k p. change (positions bot_holding_x)
      with [("X", {| shares := 5; cost_basis := 10; entry_time := 0 |})].
    simpl. destruct (String.eqb k "X"); [|discriminate].
    intros [= <-]. reflexivity. }
  repeat (split; [assumption|]).
  apply (@sized_buy_executes 3 3 bot_holding_x "X" 10 9 9.50
           H1 H2 H3 H4 H5).
Defined.

(** *** Round trip *)

Lemma del_set_set_absent {V} k (v v' : V) d :
  dict_lookup k d = None ->
  dict_del k (dict_set k v' (dict_set k v d)) = d.
Proof.
  induction d as [|[k0 v0] d IH]; simpl.
  - intros _. rewrite String.eqb_refl. simpl.
    rewrite String.eqb_refl. reflexivity.
  - destruct (String.eqb k k0) eqn:E; [discriminate|].
    intros H. simpl. rewrite E. simpl. rewrite E. rewrite (IH H).
    reflexivity.
Qed.

(** X21.  In exact arithmetic, buying a symbol that is not held and
    selling the same amount at the same price restores the positions and
    the cash; the trade history keeps the two records.  (In the doubles of
    the code [(cash - v) + v] can differ from [cash] by a rounding.) *)
Theorem buy_then_sell_round_trip
    t_entry t_buy t_sell self symbol price amount :
  dict_lookup symbol (positions self) = None ->
  amount * price <= cash self ->
  let bought := after_trade t_entry t_buy self symbol "BUY" price amount in
  let sold := after_trade t_entry t_sell bought symbol "SELL" price amount in
  positions sold = positions self /\
  cash sold == cash self /\
  trade_history sold
  = (trade_history self
     ++ [ {| tr_symbol := symbol; tr_action := "BUY"; tr_shares := amount;
             tr_price := price; tr_value := amount * price;
             tr_timestamp := t_buy |};
          {| tr_symbol := symbol; tr_action := "SELL"; tr_shares := amount;
             tr_price := price; tr_value := amount * price;
             tr_timestamp := t_sell |} ])%list.
Proof.
  intros Hnone Hcash bought sold.
  assert (Hb : bought
               = append_trade
                   {| tr_symbol := symbol; tr_action := "BUY";
                      tr_shares := amount; tr_price := price;
                      tr_value := amount * price; tr_timestamp := t_buy |}
                   (set_positions
                      (dict_set symbol
                         {| shares := amount; cost_basis := price;
                            entry_time := t_entry |} (positions self))
                      (set_cash (cash self - amount * price) self))).
  { unfold bought, after_trade, execute_trade.
    apply Qle_bool_iff in Hcash. rewrite Hcash.
    cbn [String.eqb Ascii.eqb Bool.eqb andb set_cash positions cash].
    rewrite Hnone. reflexivity. }
  unfold sold, after_trade, execute_trade.
  cbn [String.eqb Ascii.eqb Bool.eqb andb].
  rewrite Hb.
  cbn [append_trade set_positions set_cash positions cash trade_history].
  rewrite lookup_set_same. cbn [shares cost_basis entry_time set_shares].
  assert (Hclamp : Qlt_bool amount amount = false)
    by (apply Qlt_bool_false; apply Qle_refl).
  rewrite Hclamp.
  assert (Hzero : Qeq_bool (amount - amount) 0 = true)
    by (apply Qeq_bool_iff; ring).
  rewrite Hzero.
  cbn [fst append_trade set_positions set_cash positions cash trade_history].
  split; [|split].
  - apply del_set_set_absent. exact Hnone.
  - ring.
  - rewrite <- app_assoc. reflexivity.
Qed.

Lemma buy_then_sell_round_trip_witness :
  dict_lookup "Y" (positions bot_holding_x) = None /\
  40 * 2.5 <= cash bot_holding_x /\
  positions (after_trade 1 2 (after_trade 1 1 bot_holding_x "Y" "BUY" 2.5 40)
               "Y" "SELL" 2.5 40)
  = positions bot_holding_x /\
  cash (after_trade 1 2 (after_trade 1 1 bot_holding_x "Y" "BUY" 2.5 40)
          "Y" "SELL" 2.5 40)
  == cash bot_holding_x.
Proof.
  assert (H1 : dict_lookup "Y" (positions bot_holding_x) = None)
    by reflexivity.
  assert (H2 : 40 * 2.5 <= cash bot_holding_x)
    by (vm_compute; discriminate).
  split; [exact H1|]. split; [exact H2|].
  destruct (@buy_then_sell_round_trip 1 1 2 bot_holding_x "Y" 2.5 40 H1 H2)
    as (Hp & Hc & _).
  split; [exact Hp | exact Hc].
Defined.

End LedgerMore.

(* ------------------------------------------------------------------ *)
(** ** Properties of the pairs read from the service *)

Module ApiFacts.
Import Py Api.
Open Scope Q_scope.
Open Scope string_scope.

Lemma slice_to_length {A} (n : Z) (l : list A) :
  (0 <= n)%Z -> (List.length (slice_to n l) <= Z.to_nat n)%nat.
Proof.
  intros Hn. unfold slice_to.
  destruct (0 <=? n)%Z eqn:E; [|apply Z.leb_gt in E; lia].
  rewrite length_firstn. apply Nat.le_min_l.
Qed.

Lemma firstn_incl {A} (n : nat) (l : list A) : incl (firstn n l) l.
Proof.
  intros x Hx. rewrite <- (firstn_skipn n l).
  apply in_or_app. left. exact Hx.
Qed.

Lemma slice_to_incl {A} (n : Z) (l : list A) : incl (slice_to n l) l.
Proof.
  unfold slice_to. destruct (0 <=? n)%Z; apply firstn_incl.
Qed.

Lemma sliced_items_length v n w :
  py_slice_to v n = Ok w ->
  (0 <= n)%Z -> (List.length (items w) <= Z.to_nat n)%nat.
Proof.
  intros Hs Hn.
  destruct v; try discriminate; injection Hs as <-; cbn [items].
  - rewrite length_map, list_ascii_of_string_of_list_ascii.
    apply slice_to_length. exact Hn.
  - apply slice_to_length. exact Hn.
Qed.

Lemma sliced_items_incl v n w :
  py_slice_to v n = Ok w -> incl (items w) (items v).
Proof.
  intros Hs.
  destruct v; try discriminate; injection Hs as <-; cbn [items].
  - rewrite list_ascii_of_string_of_list_ascii.
    intros x Hx. apply in_map_iff in Hx as (c & <- & Hc).
    apply in_map_iff. exists c. split; [reflexivity|].
    eapply slice_to_incl; eassumption.
  - apply slice_to_incl.
Qed.

Section Network.

Variable fetch : string -> result pyval.
Variable now : nat -> Z.

(** What the loop adds to the pairs it has: some of the pairs it goes
    through, each recent at a reading of the clock. *)
Lemma recent_loop_keeps pairs : forall i acc r,
  recent_loop now i pairs acc = Ok r ->
  exists kept,
    r = (acc ++ kept)%list /\
    (List.length kept <= List.length pairs)%nat /\
    incl kept pairs /\
    Forall (fun p => exists j, recent_at (now j) p) kept.
Proof.
  induction pairs as [|p rest IH]; intros i acc r; cbn [recent_loop].
  - intros [= <-]. exists []. rewrite app_nil_r.
    repeat split; auto. intros x [].
  - destruct (get p "pairCreatedAt" (PyInt 0)) as [v|e] eqn:Hget;
      cbn [rbind]; [|discriminate].
    unfold float_minus.
    destruct (float_operand v) as [[c|e]|] eqn:Hnum; cbn [rbind];
      try discriminate.
    destruct (Qlt_bool (timestamp_ms (now i) - c) (24 * 60 * 60 * 1000))
      eqn:Hage; intros Hloop;
      destruct (IH _ _ _ Hloop) as (kept & -> & Hlen & Hincl & Hrec).
    + exists (p :: kept). rewrite <- app_assoc. repeat split.
      * simpl. lia.
      * intros x [<-|Hx]; [left; reflexivity | right; auto].
      * constructor; [|exact Hrec].
        exists i, c. split.
        -- unfold created_at. rewrite Hget, Hnum. reflexivity.
        -- apply LedgerFacts.Qlt_bool_iff. exact Hage.
    + exists kept. repeat split.
      * simpl. lia.
      * intros x Hx. right. auto.
      * exact Hrec.
Qed.

(** A pair whose creation time is not a number stops the loop. *)
Lemma recent_loop_bad_pair pairs p : forall i acc,
  In p pairs -> created_at p = None ->
  exists e, recent_loop now i pairs acc = Raise e.
Proof.
  induction pairs as [|q rest IH]; intros i acc Hin Hbad; [destruct Hin|].
  cbn [recent_loop].
  destruct (get q "pairCreatedAt" (PyInt 0)) as [v|e] eqn:Hget;
    cbn [rbind]; [|eexists; reflexivity].
  unfold float_minus.
  destruct (float_operand v) as [[c|e]|] eqn:Hnum; cbn [rbind];
    try (eexists; reflexivity).
  destruct Hin as [->|Hin].
  - unfold created_at in Hbad. rewrite Hget, Hnum in Hbad. discriminate.
  - apply IH; assumption.
Qed.

(** X22.  [get_new_pairs] with a limit that is not negative returns at
    most that many pairs, whatever the service answers, and each of them
    is one of the pairs of the response. *)
Theorem new_pairs_at_most_limit limit :
  (0 <= limit)%Z ->
  (List.length (fst (get_new_pairs fetch now limit)) <= Z.to_nat limit)%nat
  /\
  (forall data all,
     fetch (base_url ++ "/search/?q=created") = Ok data ->
     get data "pairs" (PyList []) = Ok all ->
     incl (fst (get_new_pairs fetch now limit)) (items all)).
Proof.
  intros Hlimit. unfold get_new_pairs, new_pairs_body.
  destruct (fetch (base_url ++ "/search/?q=created")) as [data|e];
    cbn [rbind fst]; [|split; [simpl; lia | intros ? ? _ _ x []]].
  destruct (get data "pairs" (PyList [])) as [all|e] eqn:Hget;
    cbn [rbind fst]; [|split; [simpl; lia | intros ? ? _ _ x []]].
  destruct (py_slice_to all limit) as [pairs|e] eqn:Hslice;
    cbn [rbind fst];
    [|split; [simpl; lia | intros ? ? _ _ x []]].
  destruct (recent_loop now 0 (items pairs) []) as [r|e] eqn:Hloop;
    cbn [fst]; [|split; [simpl; lia | intros ? ? _ _ x []]].
  destruct (recent_loop_keeps _ _ _ Hloop) as (kept & -> & Hlen & Hincl & _).
  cbn [app]. split.
  - pose proof (@sliced_items_length all limit pairs Hslice Hlimit). lia.
  - intros data' all' [= <-] Hget' x Hx.
    rewrite Hget in Hget'. injection Hget' as <-.
    eapply sliced_items_incl; [eassumption|]. auto.
Qed.

(** When the loop can read every creation time, it returns what it had
    and the pairs that are recent at their own turn. *)
Lemma recent_loop_all_readable pairs : forall i acc,
  Forall (fun p => created_at p <> None) pairs ->
  recent_loop now i pairs acc = Ok (acc ++ recent_from now i pairs)%list.
Proof.
  induction pairs as [|p rest IH]; intros i acc Hall;
    cbn [recent_loop recent_from].
  - rewrite app_nil_r. reflexivity.
  - inversion Hall as [|? ? Hp Hrest]; subst.
    unfold is_recent. unfold created_at in Hp |- *.
    destruct (get p "pairCreatedAt" (PyInt 0)) as [v|e];
      [|exfalso; apply Hp; reflexivity].
    cbn [rbind]. unfold float_minus.
    destruct (float_operand v) as [[c|e]|];
      try (exfalso; apply Hp; reflexivity).
    cbn [rbind].
    destruct (Qlt_bool (timestamp_ms (now i) - c) (24 * 60 * 60 * 1000)).
    + rewrite (IH _ _ Hrest), <- app_assoc. reflexivity.
    + apply IH. exact Hrest.
Qed.

(** X23.  When the response has a list of pairs and every pair within the
    limit has a creation time that the loop can read (a number, 0 when the
    pair has none), [get_new_pairs] prints nothing and returns exactly, in
    order, the pairs created less than 24 hours before the reading of the
    clock at their own turn of the loop. *)
Theorem new_pairs_are_recent limit d l :
  fetch (base_url ++ "/search/?q=created") = Ok (PyDict d) ->
  dict_lookup "pairs" d = Some (PyList l) ->
  Forall (fun p => created_at p <> None) (slice_to limit l) ->
  get_new_pairs fetch now limit = (recent_from now 0 (slice_to limit l), []).
Proof.
  intros Hfetch Hpairs Hall.
  unfold get_new_pairs, new_pairs_body, get.
  rewrite Hfetch. cbn [rbind]. rewrite Hpairs. cbn [rbind py_slice_to items].
  rewrite (@recent_loop_all_readable (slice_to limit l) 0 [] Hall).
  reflexivity.
Qed.

(** X24.  One pair among those looked at whose creation time is not a
    number (or that is not a dict) makes [get_new_pairs] return no pair at
    all and print the error, however recent the other pairs are. *)
Theorem bad_pair_discards_all limit d l p :
  fetch (base_url ++ "/search/?q=created") = Ok (PyDict d) ->
  dict_lookup "pairs" d = Some (PyList l) ->
  In p (slice_to limit l) ->
  created_at p = None ->
  exists e,
    get_new_pairs fetch now limit
    = ([], ["Error fetching pairs: " ++ str_exn e]).
Proof.
  intros Hfetch Hpairs Hin Hbad.
  unfold get_new_pairs, new_pairs_body, get.
  rewrite Hfetch. cbn [rbind]. rewrite Hpairs. cbn [rbind py_slice_to items].
  destruct (recent_loop_bad_pair (slice_to limit l) p 0 [] Hin Hbad)
    as [e ->].
  exists e. reflexivity.
Qed.

(** X25.  [get_trending_pairs] returns at most 20 items, whatever the
    service answers, and the first 20 pairs of the response, in order,
    when it has a list of pairs. *)
Theorem trending_pairs_at_most_20 :
  (List.length (items (fst (get_trending_pairs fetch))) <= 20)%nat /\
  (forall d l,
     fetch (base_url ++ "/search/?q=volume") = Ok (PyDict d) ->
     dict_lookup "pairs" d = Some (PyList l) ->
     get_trending_pairs fetch = (PyList (firstn 20 l), [])).
Proof.
  unfold get_trending_pairs, trending_body. split.
  - destruct (fetch (base_url ++ "/search/?q=volume")) as [data|e];
      cbn [rbind fst items]; [|simpl; lia].
    destruct (get data "pairs" (PyList [])) as [all|e];
      cbn [rbind fst items]; [|simpl; lia].
    destruct (py_slice_to all 20) as [pairs|e] eqn:Hslice;
      cbn [fst items]; [|simpl; lia].
    apply (@sliced_items_length all 20 pairs Hslice). lia.
  - intros d l Hfetch Hpairs. rewrite Hfetch. unfold get.
    cbn [rbind]. rewrite Hpairs. reflexivity.
Qed.

End Network.

Lemma new_pairs_at_most_limit_witness :
  (0 <= 1)%Z /\
  (List.length (fst (get_new_pairs (answer response_three) still_clock 1))
   <= Z.to_nat 1)%nat.
Proof.
  assert (H : (0 <= 1)%Z) by lia.
  split; [exact H|].
  apply (proj1 (@new_pairs_at_most_limit
                  (answer response_three) still_clock 1 H)).
Defined.

Lemma new_pairs_are_recent_witness :
  answer response_three (base_url ++ "/search/?q=created")
  = Ok response_three /\
  Forall (fun p => created_at p <> None)
         (slice_to 50
            [PyDict [("pairCreatedAt", PyInt 1699990000000)];
             PyDict [("pairCreatedAt", PyInt 1600000000000)];
             PyDict [("chainId", PyStr "solana")]]) /\
  get_new_pairs (answer response_three) still_clock 50
  = ([PyDict [("pairCreatedAt", PyInt 1699990000000)]], []).
Proof.
  assert (Hall : Forall (fun p => created_at p <> None)
                   (slice_to 50
                      [PyDict [("pairCreatedAt", PyInt 1699990000000)];
                       PyDict [("pairCreatedAt", PyInt 1600000000000)];
                       PyDict [("chainId", PyStr "solana")]]))
    by (repeat constructor; discriminate).
  split; [reflexivity|]. split; [exact Hall|].
  apply (@new_pairs_are_recent (answer response_three) still_clock 50
           [("pairs",
             PyList [PyDict [("pairCreatedAt", PyInt 1699990000000)];
                     PyDict [("pairCreatedAt", PyInt 1600000000000)];
                     PyDict [("chainId", PyStr "solana")]])]
           [PyDict [("pairCreatedAt", PyInt 1699990000000)];
            PyDict [("pairCreatedAt", PyInt 1600000000000)];
            PyDict [("chainId", PyStr "solana")]]
           eq_refl eq_refl Hall).
Defined.

Lemma bad_pair_discards_all_witness :
  answer response_bad_pair (base_url ++ "/search/?q=created")
  = Ok response_bad_pair /\
  In (PyDict [("pairCreatedAt", PyStr "2023-11-14")])
     (slice_to 50 [PyDict [("pairCreatedAt", PyInt 1699990000000)];
                   PyDict [("pairCreatedAt", PyStr "2023-11-14")]]) /\
  created_at (PyDict [("pairCreatedAt", PyStr "2023-11-14")]) = None /\
  exists e,
    get_new_pairs (answer response_bad_pair) still_clock 50
    = ([], ["Error fetching pairs: " ++ str_exn e]).
Proof.
  assert (Hin : In (PyDict [("pairCreatedAt", PyStr "2023-11-14")])
                   (slice_to 50
                      [PyDict [("pairCreatedAt", PyInt 1699990000000)];
                       PyDict [("pairCreatedAt", PyStr "2023-11-14")]]))
    by (right; left; reflexivity).
  split; [reflexivity|]. split; [exact Hin|]. split; [reflexivity|].
  apply (@bad_pair_discards_all (answer response_bad_pair) still_clock 50
           [("pairs",
             PyList [PyDict [("pairCreatedAt", PyInt 1699990000000)];
                     PyDict [("pairCreatedAt", PyStr "2023-11-14")]])]
           [PyDict [("pairCreatedAt", PyInt 1699990000000)];
            PyDict [("pairCreatedAt", PyStr "2023-11-14")]]
           (PyDict [("pairCreatedAt", PyStr "2023-11-14")])
           eq_refl eq_refl Hin eq_refl).
Defined.

(** The three pairs of the example: the recent one is returned, the old
    one and the one without a creation time are dropped. *)
Example new_pairs_example :
  get_new_pairs (answer response_three) still_clock 50
  = ([PyDict [("pairCreatedAt", PyInt 1699990000000)]], []).
Proof. reflexivity. Qed.

End ApiFacts.
